(** * JsonExcelConverter: a shallow embedding of json_excel_converter.py

    The converter flattens a nested mapping into rows, stores the rows in a
    worksheet whose equal runs are merged column by column, reads the sheet
    back with a fill-down pass and rebuilds the nested mapping.

    Python values are modelled as they reach the code: scalars (None, bool,
    int, str), lists and insertion-ordered dicts.  The spreadsheet library is
    modelled as a store of cell values: a value written to a cell is the value
    read back, a blank cell reads as missing.  Floating point numbers and the
    number formats of the workbook are outside the model. *)

From Stdlib Require Import Ascii String.
From stdpp Require Import base list strings gmap numbers pretty.

Open Scope string_scope.
Open Scope list_scope.
Open Scope nat_scope.

(** ** Python values *)

Inductive scalar : Type :=
  | SNull
  | SBool (b : bool)
  | SNum (n : Z)
  | SStr (s : string).

#[warnings="-register-all"]
Inductive json : Type :=
  | JScalar (s : scalar)
  | JList (l : list json)
  | JDict (d : list (scalar * json)).

(** A row of the flattener is a Python tuple, a row of a frame a list. *)
Definition row : Type := list json.

(** [pd.notna] on a scalar: None and NaN are the missing values. *)
Definition notna (s : scalar) : bool :=
  match s with SNull => false | _ => true end.

(** Python's [==] on scalars: a bool is the integer 0 or 1. *)
Definition num_of_bool (b : bool) : Z := if b then 1%Z else 0%Z.

Definition py_eqb (x y : scalar) : bool :=
  match x, y with
  | SNull, SNull => true
  | SStr s, SStr t => String.eqb s t
  | SNum n, SNum m => Z.eqb n m
  | SBool b, SBool c => Bool.eqb b c
  | SBool b, SNum m => Z.eqb (num_of_bool b) m
  | SNum n, SBool c => Z.eqb n (num_of_bool c)
  | _, _ => false
  end.

(** [x in l] for a list of Python values whose elements are compared with a
    scalar: only a scalar element can be equal to it. *)
Definition json_is (x : scalar) (v : json) : bool :=
  match v with JScalar y => py_eqb x y | _ => false end.

Definition list_mem (x : scalar) (l : list json) : bool :=
  existsb (json_is x) l.

(** ** Insertion-ordered dicts *)

Fixpoint dict_get (k : scalar) (d : list (scalar * json)) : option json :=
  match d with
  | [] => None
  | (k', v) :: rest => if py_eqb k k' then Some v else dict_get k rest
  end.

Definition dict_mem (k : scalar) (d : list (scalar * json)) : bool :=
  match dict_get k d with Some _ => true | None => false end.

(** [d[k] = v]: an existing key keeps its place, a new key goes last. *)
Fixpoint dict_set (k : scalar) (v : json) (d : list (scalar * json))
  : list (scalar * json) :=
  match d with
  | [] => [(k, v)]
  | (k', v') :: rest =>
      if py_eqb k k' then (k', v) :: rest else (k', v') :: dict_set k v rest
  end.

(** ** Errors raised by the converter and by the calls it makes *)

Inductive error : Type :=
  | MissingArgument      (* ValueError raised by the two entry points *)
  | DepthMismatch        (* ValueError raised by the two validators *)
  | IOFailure            (* a file that cannot be opened or parsed *)
  | EmptySequence        (* ValueError of max() on an empty sequence *)
  | AttributeError       (* .items() or .append() on the wrong type *)
  | IndexError           (* row[-2] on a row shorter than two cells *)
  | TypeError            (* a list or a scalar indexed by a key *)
  | CannotConvert        (* a cell value the workbook cannot hold *)
  | AmbiguousTruth       (* truth value of an array with several elements *)
  | Unmodelled.          (* a step whose outcome the model leaves open *)

Inductive result (A : Type) : Type :=
  | Ok (a : A)
  | Err (e : error).
Arguments Ok {A} a.
Arguments Err {A} e.

Definition rbind {A B : Type} (r : result A) (f : A -> result B) : result B :=
  match r with Ok a => f a | Err e => Err e end.

Notation "'let?' x ':=' r 'in' k" := (rbind r (fun x => k))
  (at level 10, x name, r at level 200, k at level 200).

(** ** _flatten_dict (lines 103-123) *)

(** [_flatten_dict d parent_key]; [d] is a dict at every call the source
    makes after the first, and the first call on another value raises in
    [_dict_to_dataframe] below. *)
Fixpoint _flatten_dict (d : json) (parent_key : row) {struct d} : list row :=
  match d with
  | JDict items =>
      (fix loop (items : list (scalar * json)) : list row :=
         match items with
         | [] => []
         | (k, v) :: rest =>
             (match v with
              | JDict _ => _flatten_dict v (parent_key ++ [JScalar k])
              | JList ((_ :: _) as l) =>
                  map (fun item => parent_key ++ [JScalar k; item]) l
              | _ => [parent_key ++ [JScalar k; v]]
              end) ++ loop rest
         end) items
  | _ => []
  end.

(** ** _validate_json_depth (lines 225-261) *)

Fixpoint get_depth (d : json) (current_depth : nat) {struct d} : nat :=
  match d with
  | JDict [] => current_depth
  | JDict items =>
      list_max (map (fun kv => get_depth (snd kv) (current_depth + 1)) items)
  | JList [] => current_depth
  | JList l => list_max (map (fun item => get_depth item current_depth) l)
  | JScalar _ => current_depth
  end.

Fixpoint check_depth (max_depth : nat) (d : json) (depth : nat) {struct d}
  : bool :=
  match d with
  | JDict items =>
      if existsb (fun kv => negb (get_depth (snd kv) (depth + 1) =? max_depth))
                 items
      then false
      else forallb (fun kv => check_depth max_depth (snd kv) (depth + 1)) items
  | JList l =>
      if existsb (fun item => negb (get_depth item depth =? max_depth)) l
      then false
      else forallb (fun item => check_depth max_depth item depth) l
  | JScalar _ => true
  end.

Definition _validate_json_depth (data : json) : result unit :=
  let max_depth := get_depth data 0 in
  if check_depth max_depth data 0 then Ok tt else Err DepthMismatch.

(** ** _dict_to_dataframe (lines 89-101) *)

Definition NA : json := JScalar SNull.

(** [pd.DataFrame(rows, columns=...)] fills a short row with missing values. *)
Definition pad (n : nat) (r : row) : row :=
  r ++ replicate (n - length r) NA.

Definition _dict_to_dataframe (data_dict : json) : result (list row) :=
  match data_dict with
  | JDict _ =>
      let rows := _flatten_dict data_dict [] in
      match rows with
      | [] => Err EmptySequence
      | _ :: _ =>
          let max_depth := list_max (map length rows) in
          Ok (map (pad max_depth) rows)
      end
  | _ => Err AttributeError
  end.

(** ** The worksheet *)

(** A merged range of one column: (column, first row, last row), rows and
    columns counted from 1 as the workbook does. *)
Definition range : Type := (nat * nat * nat)%type.

Record worksheet : Type := Worksheet {
  ws_cells : list (list scalar);   (* row 1 first; SNull is a blank cell *)
  ws_merged : list range
}.

Definition max_row (cells : list (list scalar)) : nat := length cells.
Definition max_column (cells : list (list scalar)) : nat :=
  list_max (map length cells).

(** [ws.cell(row=r, column=c).value] *)
Definition cell_value (cells : list (list scalar)) (r c : nat) : scalar :=
  nth (c - 1) (nth (r - 1) cells []) SNull.

(** A cell of the frame as the workbook stores it. *)
Definition to_cell (v : json) : result scalar :=
  match v with
  | JScalar s => Ok s
  | _ => Err CannotConvert
  end.

Fixpoint to_cells (r : row) : result (list scalar) :=
  match r with
  | [] => Ok []
  | v :: rest => let? c := to_cell v in let? cs := to_cells rest in Ok (c :: cs)
  end.

(** [df.to_excel(writer, index=False, header=False, startrow=1)]: the data
    rows, to be placed from row 2 on. *)
Fixpoint to_excel (df : list row) : result (list (list scalar)) :=
  match df with
  | [] => Ok []
  | r :: rest => let? cs := to_cells r in let? g := to_excel rest in Ok (cs :: g)
  end.

(** _set_headers (lines 140-151): the labels of row 1. *)
Definition _set_headers (ncols : nat) : list scalar :=
  map (fun i => SStr ("Level " +:+ pretty (i + 1))) (seq 0 ncols).

(** ** _merge_cells (lines 153-174) *)

Definition is_not_None (s : scalar) : bool :=
  match s with SNull => false | _ => true end.

(** The inner loop over the rows of one column: [cells] are the values still
    to visit, [row] the row of the first of them. *)
Fixpoint merge_loop (col : nat) (last_row : nat) (cells : list scalar)
    (row start_row : nat) (prev_value : scalar) : list range :=
  match cells with
  | [] =>
      if negb (start_row =? last_row) && is_not_None prev_value
      then [(col, start_row, last_row)] else []
  | cell_value :: rest =>
      if negb (py_eqb cell_value prev_value) then
        (if negb (start_row =? row - 1) && is_not_None prev_value
         then [(col, start_row, row - 1)] else [])
        ++ merge_loop col last_row rest (row + 1) row cell_value
      else merge_loop col last_row rest (row + 1) start_row prev_value
  end.

Definition column_from (cells : list (list scalar)) (first_row c : nat)
  : list scalar :=
  map (fun r => cell_value cells r c)
      (seq first_row (max_row cells + 1 - first_row)).

Definition _merge_cells (cells : list (list scalar)) : list range :=
  flat_map (fun col =>
              merge_loop (col + 1) (max_row cells)
                         (column_from cells 2 (col + 1)) 2 2 SNull)
           (seq 0 (max_column cells)).

(** [ws.merge_cells]: every cell of the range but the first becomes blank. *)
Definition in_merged_tail (m : list range) (r c : nat) : bool :=
  existsb (fun '(col, first, last) =>
             (col =? c) && (first <? r) && (r <=? last)) m.

Definition blank_merged (m : list range) (cells : list (list scalar))
  : list (list scalar) :=
  imap (fun i r =>
          imap (fun j v => if in_merged_tail m (i + 1) (j + 1)
                           then SNull else v) r) cells.

(** The sheet that _save_to_excel (lines 125-138) leaves in the workbook. *)
Definition sheet_of (df : list row) : result worksheet :=
  let? data := to_excel df in
  let ncols := match df with r :: _ => length r | [] => 0 end in
  let cells := _set_headers ncols :: data in
  let merged := _merge_cells cells in
  Ok (Worksheet (blank_merged merged cells) merged).

(** ** Reading the sheet (lines 183-184) *)

(** [df.ffill(axis=0)]: a missing cell takes the value above it. *)
Fixpoint fill_row (above r : list scalar) : list scalar :=
  match r with
  | [] => []
  | c :: r' =>
      (if notna c then c else hd SNull above) :: fill_row (tl above) r'
  end.

Fixpoint ffill_from (above : list scalar) (rows : list (list scalar))
  : list (list scalar) :=
  match rows with
  | [] => []
  | r :: rest => let r' := fill_row above r in r' :: ffill_from r' rest
  end.

Definition ffill (rows : list (list scalar)) : list (list scalar) :=
  ffill_from [] rows.

(** [pd.read_excel(..., header=None).iloc[1:]] followed by the fill. *)
Definition read_rows (ws : worksheet) : list (list scalar) :=
  ffill (tl (ws_cells ws)).

(** ** _build_dict (lines 187-213) *)

(** The cells before the last two, then [row[-2]] and [row[-1]]. *)
Definition split_row (r : list scalar)
  : result (list scalar * scalar * scalar) :=
  match rev r with
  | last_value :: last_key :: path => Ok (rev path, last_key, last_value)
  | _ => Err IndexError
  end.

(** Lines 207-212 on the object [current_level] the walk has reached.
    _build_dict stores dicts and lists only: a scalar is met nowhere, and a
    list is met as [current_level] only when an earlier row ended on the key
    this row walks through.  A list indexed by a string raises TypeError;
    indexed by a number the outcome depends on the kind of number, which the
    model does not keep, and is left open. *)
Definition set_leaf (last_key last_value : scalar) (current_level : json)
  : result json :=
  if notna last_key then
    match current_level with
    | JDict d =>
        match dict_get last_key d with
        | None =>
            Ok (JDict (dict_set last_key
                         (JList (if notna last_value
                                 then [JScalar last_value] else [])) d))
        | Some (JList l) =>
            if notna last_value && negb (list_mem last_value l)
            then Ok (JDict (dict_set last_key
                              (JList (l ++ [JScalar last_value])) d))
            else Ok (JDict d)
        | Some (JDict sub) =>
            if notna last_value && negb (dict_mem last_value sub)
            then Err AttributeError
            else Ok (JDict d)
        | Some (JScalar _) => Err Unmodelled
        end
    | JList _ =>
        match last_key with
        | SStr _ => Err TypeError
        | _ => Err Unmodelled
        end
    | JScalar _ => Err TypeError
    end
  else Ok current_level.

(** Lines 201-206 followed by lines 207-212: the object [current_level]
    after the row has been entered below it. *)
Fixpoint walk (path : list scalar) (last_key last_value : scalar)
    (current_level : json) : result json :=
  match path with
  | [] => set_leaf last_key last_value current_level
  | value :: rest =>
      if notna value then
        match current_level with
        | JDict d =>
            match dict_get value d with
            | None =>
                let? sub := walk rest last_key last_value (JDict []) in
                Ok (JDict (dict_set value sub d))
            | Some child =>
                let? sub := walk rest last_key last_value child in
                Ok (JDict (dict_set value sub d))
            end
        | JList _ =>
            match value with
            | SStr _ => Err TypeError
            | _ => Err Unmodelled
            end
        | JScalar _ => Err TypeError
        end
      else walk rest last_key last_value current_level
  end.

Definition build_row (res : json) (r : list scalar) : result json :=
  let? parts := split_row r in
  let '(path, last_key, last_value) := parts in
  walk path last_key last_value res.

(** The loop of line 198 over the rows, [res] being the dict [result]. *)
Fixpoint build_rows (res : json) (rows : list (list scalar)) : result json :=
  match rows with
  | [] => Ok res
  | r :: rest => let? res' := build_row res r in build_rows res' rest
  end.

Definition _build_dict (df : list (list scalar)) : result json :=
  build_rows (JDict []) df.

(** ** _validate_excel_depth (lines 263-285) *)

(** The truth value of [pd.notna(item)] in the comprehension of line 274:
    a bool for a scalar, True for a dict, and for a list the truth value of
    the array of its elements' flags, which exists for one element only. *)
Definition item_notna (item : json) : result bool :=
  match item with
  | JScalar s => Ok (notna s)
  | JDict _ => Ok true
  | JList [JScalar s] => Ok (notna s)
  | JList (_ :: _ :: _) => Err AmbiguousTruth
  | JList _ => Err Unmodelled
  end.

Fixpoint get_row_depth (r : row) : result nat :=
  match r with
  | [] => Ok 0
  | item :: rest =>
      let? b := item_notna item in
      let? n := get_row_depth rest in
      Ok (if b then S n else n)
  end.

Fixpoint row_depths (df : list row) : result (list nat) :=
  match df with
  | [] => Ok []
  | r :: rest =>
      let? n := get_row_depth r in
      let? ns := row_depths rest in
      Ok (n :: ns)
  end.

Definition list_min (l : list nat) : nat :=
  match l with
  | [] => 0
  | x :: l' => foldr Nat.min x l'
  end.

(** [check_depth(df)]: the minimum and the maximum of no depths at all are
    both NaN, which differs from itself. *)
Definition check_row_depths (df : list row) : result bool :=
  let? ds := row_depths df in
  match ds with
  | [] => Ok false
  | _ :: _ => Ok (list_max ds =? list_min ds)
  end.

(** The column labels [_from_nested_dict] collects: the keys of the inner
    dicts, each once, in the order met. *)
Definition add_label (labels : list scalar) (k : scalar) : list scalar :=
  if existsb (py_eqb k) labels then labels else labels ++ [k].

Fixpoint collect_labels (labels : list scalar) (data : list (scalar * json))
  : result (list scalar) :=
  match data with
  | [] => Ok labels
  | (_, JDict s) :: rest =>
      collect_labels (foldl add_label labels (map fst s)) rest
  | _ :: _ => Err AttributeError
  end.

Definition nested_row (labels : list scalar) (v : json) : row :=
  match v with
  | JDict s => map (fun c => default NA (dict_get c s)) labels
  | _ => []
  end.

Fixpoint list_rows (data : list (scalar * json)) : result (list row) :=
  match data with
  | [] => Ok []
  | (_, JList l) :: rest => let? rs := list_rows rest in Ok (l :: rs)
  | _ :: _ => Err TypeError
  end.

Definition has_items (kv : scalar * json) : bool :=
  match snd kv with
  | JDict (_ :: _) => true
  | _ => false
  end.

(** [pd.DataFrame.from_dict(data, orient='index')].  When the first value is
    a dict, one column per key of the inner dicts and one row per key of
    [data] whose inner dict is not empty; otherwise the values are the rows,
    one per key of [data]. *)
Definition from_dict_index (data : list (scalar * json)) : result (list row) :=
  match data with
  | [] => Ok []
  | (_, JDict _) :: _ =>
      let? labels := collect_labels [] data in
      Ok (map (fun kv => nested_row labels (snd kv))
              (List.filter has_items data))
  | _ :: _ =>
      let? rows := list_rows data in
      Ok (map (pad (list_max (map length rows))) rows)
  end.

Definition _validate_excel_depth (data : json) : result unit :=
  match data with
  | JDict d =>
      let? df := from_dict_index d in
      let? ok := check_row_depths df in
      if ok then Ok tt else Err DepthMismatch
  | _ => Err AttributeError
  end.

(** ** The converter object and the files it works on *)

Record converter : Type := Converter {
  json_file : option string;
  data_dict : option json;
  excel_file : option string;
  output_json_file : option string
}.

Inductive file : Type :=
  | FJson (t : json)            (* a JSON document *)
  | FSheet (ws : worksheet).    (* a workbook with one sheet *)

Inductive io_event : Type :=
  | OpenRead (path : string)
  | OpenWrite (path : string).

(** The files by path and the opens made so far, latest first.  Every path
    can be opened for writing. *)
Record world : Type := World {
  files : gmap string file;
  io_log : list io_event
}.

Definition opened (e : io_event) (w : world) : world :=
  World (files w) (e :: io_log w).

Definition stored (path : string) (f : file) (w : world) : world :=
  World (<[path := f]> (files w)) (io_log w).

(** Python's truth value of a path attribute: None and the empty string are
    false. *)
Definition truthy (p : option string) : option string :=
  match p with
  | Some "" => None
  | Some s => Some s
  | None => None
  end.

Definition set_data_dict (self : converter) (t : json) : converter :=
  Converter (json_file self) (Some t) (excel_file self)
            (output_json_file self).

Definition set_excel_file (self : converter) (p : string) : converter :=
  Converter (json_file self) (data_dict self) (Some p)
            (output_json_file self).

(** _load_json (lines 63-74) *)
Definition _load_json (path : string) (w : world) : result json * world :=
  let w' := opened (OpenRead path) w in
  match files w !! path with
  | Some (FJson t) => (Ok t, w')
  | _ => (Err IOFailure, w')
  end.

(** _save_to_excel (lines 125-138).  When a cell cannot be converted the
    exception leaves the [with] block; what the writer has stored by then is
    not modelled and the files are left as they were. *)
Definition _save_to_excel (df : list row) (path : string) (w : world)
  : result unit * world :=
  let w' := opened (OpenWrite path) w in
  match sheet_of df with
  | Ok ws => (Ok tt, stored path (FSheet ws) w')
  | Err e => (Err e, w')
  end.

(** _excel_to_dict (lines 176-185) *)
Definition _excel_to_dict (path : string) (w : world) : result json * world :=
  let w' := opened (OpenRead path) w in
  match files w !! path with
  | Some (FSheet ws) => (_build_dict (read_rows ws), w')
  | _ => (Err IOFailure, w')
  end.

(** _save_to_json (lines 215-223) *)
Definition _save_to_json (path : string) (nested_dict : json) (w : world)
  : result unit * world :=
  (Ok tt, stored path (FJson nested_dict) (opened (OpenWrite path) w)).

Section EntryPoints.

(** [Path(p).stem] of the standard library: the last component of the path
    without its last suffix. *)
Variable path_stem : string -> string.

(** _generate_excel_filename (lines 76-87) *)
Definition _generate_excel_filename (path : string) : string :=
  path_stem path +:+ ".xlsx".

(** Lines 41-42. *)
Definition convert_and_save (self : converter) (t : json) (path : string)
    (w : world) : result unit * converter * world :=
  match _dict_to_dataframe t with
  | Err e => (Err e, self, w)
  | Ok data_frames =>
      let '(r, w') := _save_to_excel data_frames path w in (r, self, w')
  end.

(** json_to_excel (lines 22-42): the outcome, the object and the files
    after the call. *)
Definition json_to_excel (self : converter) (w : world)
  : result unit * converter * world :=
  match truthy (json_file self) with
  | Some jf =>
      match _load_json jf w with
      | (Err e, w1) => (Err e, self, w1)
      | (Ok t, w1) =>
          let self1 := set_data_dict self t in
          match _validate_json_depth t with
          | Err e => (Err e, self1, w1)
          | Ok _ =>
              let path := _generate_excel_filename jf in
              convert_and_save (set_excel_file self1 path) t path w1
          end
      end
  | None =>
      match data_dict self, excel_file self with
      | Some t, Some path => convert_and_save self t path w
      | _, _ => (Err MissingArgument, self, w)
      end
  end.

(** excel_to_json (lines 44-61) *)
Definition excel_to_json (self : converter) (w : world)
  : result unit * world :=
  match truthy (excel_file self), truthy (output_json_file self) with
  | Some xf, Some out =>
      match _excel_to_dict xf w with
      | (Err e, w1) => (Err e, w1)
      | (Ok nested_dict, w1) =>
          match _validate_excel_depth nested_dict with
          | Err e => (Err e, w1)
          | Ok _ => _save_to_json out nested_dict w1
          end
      end
  | _, _ => (Err MissingArgument, w)
  end.

End EntryPoints.

(** A model of [PurePosixPath.stem] for the examples: the text after the last
    slash, cut at its last dot unless the dot comes first or last. *)
Fixpoint last_component (acc : string) (s : string) : string :=
  match s with
  | EmptyString => acc
  | String "/"%char s' => last_component "" s'
  | String c s' => last_component (acc +:+ String c "") s'
  end.

Fixpoint rfind_dot (i : nat) (found : option nat) (s : string) : option nat :=
  match s with
  | EmptyString => found
  | String "."%char s' => rfind_dot (S i) (Some i) s'
  | String _ s' => rfind_dot (S i) found s'
  end.

Definition posix_stem (p : string) : string :=
  let name := last_component "" p in
  match rfind_dot 0 None name with
  | Some i =>
      if (0 <? i) && (i <? String.length name - 1)
      then substring 0 i name else name
  | None => name
  end.

(** ** Depth of the leaves, as the specification words it *)

(** The depths reached by the leaves below [d], which itself sits at
    [depth]: a dict level adds one, the elements of a list add nothing, and
    a scalar, an empty list and an empty dict are leaves. *)
Fixpoint leaf_depths (d : json) (depth : nat) {struct d} : list nat :=
  match d with
  | JDict [] => [depth]
  | JDict items => flat_map (fun kv => leaf_depths (snd kv) (depth + 1)) items
  | JList [] => [depth]
  | JList l => flat_map (fun item => leaf_depths item depth) l
  | JScalar _ => [depth]
  end.

(** ** Sample documents *)

Definition mixed_depth_tree : json :=
  JDict [(SStr "A", JDict [(SStr "x", JList [JScalar (SStr "v")])]);
         (SStr "B", JDict [(SStr "y", JDict [(SStr "z",
                                              JList [JScalar (SStr "w")])])])].

Definition empty_leaf_tree : json :=
  JDict [(SStr "A", JDict [(SStr "B", JList [])])].

Definition sample_tree : json :=
  JDict [(SStr "A",
          JDict [(SStr "x", JList [JScalar (SStr "v1"); JScalar (SStr "v2")]);
                 (SStr "y", JList [JScalar (SStr "v3")])])].


(** ** Plain scalars: strings and numbers *)

Definition plain (s : scalar) : bool :=
  match s with
  | SStr _ | SNum _ => true
  | _ => false
  end.

(** ** Runs of equal cells *)

(** A range of column [col] that starts at row 2 or below it, ends at
    [last_row] or above it and covers cells, read by [value_at], that are
    all equal to one value. *)
Definition run_of (col last_row : nat) (value_at : nat -> scalar)
    (rg : range) : Prop :=
  let '(c, first, last) := rg in
  c = col /\ 2 <= first /\ last <= last_row /\
  exists p, forall r, first <= r <= last -> py_eqb (value_at r) p = true.

(** A table of [n] columns whose cells are all strings or numbers. *)
Definition plain_grid (n : nat) (data : list (list scalar)) : Prop :=
  Forall (fun r => length r = n /\ Forall (fun x => plain x = true) r) data.

(** The rows of the carry-forward example. *)
Definition abc_rows : list (list scalar) :=
  [[SStr "A"; SStr "x"; SStr "v1"];
   [SStr "A"; SStr "x"; SStr "v2"];
   [SStr "A"; SStr "y"; SStr "v3"]].

(** A frame whose cells are the given scalars. *)
Definition frame_of (data : list (list scalar)) : list row :=
  map (map JScalar) data.





(** The depth of a row of the sheet: the number of its cells that are not
    missing. *)
Definition row_depth (r : list scalar) : nat :=
  length (List.filter notna r).

(** A table of depth 4 whose first key has two children and whose second key
    has one. *)
Definition uneven_rows : list (list scalar) :=
  [[SStr "A"; SStr "x"; SStr "k"; SStr "v1"];
   [SStr "A"; SStr "y"; SStr "k"; SStr "v2"];
   [SStr "B"; SStr "z"; SStr "k"; SStr "v3"]].

Definition uneven_tree : json :=
  JDict [(SStr "A",
          JDict [(SStr "x", JDict [(SStr "k", JList [JScalar (SStr "v1")])]);
                 (SStr "y", JDict [(SStr "k", JList [JScalar (SStr "v2")])])]);
         (SStr "B",
          JDict [(SStr "z", JDict [(SStr "k", JList [JScalar (SStr "v3")])])])].

(** ** Trees of uniform depth with list leaves *)




(** The pipeline of the round trip: the frame of the tree is saved at
    [path] and the sheet is read back and rebuilt. *)
Definition round_trip (t : json) (path : string) (w : world) : result json :=
  let? df := _dict_to_dataframe t in
  let '(saved, w1) := _save_to_excel df path w in
  let? _ := saved in
  fst (_excel_to_dict path w1).


Definition bool_leaf_tree : json :=
  JDict [(SStr "A", JDict [(SStr "x", JList [JScalar (SNum 1)]);
                           (SStr "y", JList [JScalar (SBool true)])])].

Definition empty_branch_tree : json := JDict [(SStr "A", JDict [])].

(** ** Further notions for the flattener *)

(** The rows that one item [(k, v)] of the loop of lines 115-122 adds. *)
Definition item_rows (parent_key : row) (k : scalar) (v : json) : list row :=
  match v with
  | JDict _ => _flatten_dict v (parent_key ++ [JScalar k])
  | JList ((_ :: _) as l) =>
      map (fun item => parent_key ++ [JScalar k; item]) l
  | _ => [parent_key ++ [JScalar k; v]]
  end.


(** A dict without any leaf: its values are dicts without any leaf. *)
Fixpoint hollow (t : json) {struct t} : bool :=
  match t with
  | JDict d => forallb (fun kv => hollow (snd kv)) d
  | _ => false
  end.

Definition is_scalar (v : json) : bool :=
  match v with JScalar _ => true | _ => false end.

(** Every leaf of [t] gives a row: the lists hold scalars only and no dict
    is empty. *)
Fixpoint row_leaves (t : json) {struct t} : bool :=
  match t with
  | JScalar _ => true
  | JList l => forallb is_scalar l
  | JDict [] => false
  | JDict d => forallb (fun kv => row_leaves (snd kv)) d
  end.


(** ** Further notions for the merge pass *)

(** A range that is a run of the sheet: at least two rows long, below the
    header, inside the columns, over cells none of which is blank and all
    of which are equal. *)
Definition merged_run (cells : list (list scalar)) (rg : range) : Prop :=
  let '(c, first, last) := rg in
  1 <= c <= max_column cells /\
  2 <= first /\ first < last /\ last <= max_row cells /\
  forall r, first <= r <= last ->
            is_not_None (cell_value cells r c) = true /\
            py_eqb (cell_value cells r c) (cell_value cells first c) = true.


(** ** Further notions for the rebuilder *)



(** ** Further notions for the validator of the table side *)

(** The tree of a table of two columns: each key with the list of its
    values. *)
Definition two_level (kls : list (scalar * list scalar)) : json :=
  JDict (map (fun kl => (fst kl, JList (map JScalar (snd kl)))) kls).

(** ** main (main.py, lines 4-28) *)



Section Main.

Variable path_stem : string -> string.


End Main.


(** * Properties *)

(** ** Induction over nested values *)

Section JsonInd.
Variable P : json -> Prop.
Hypothesis Hscalar : forall s, P (JScalar s).
Hypothesis Hlist : forall l, Forall P l -> P (JList l).
Hypothesis Hdict : forall d, Forall (fun kv => P (snd kv)) d -> P (JDict d).

Fixpoint json_nested_ind (v : json) : P v :=
  match v with
  | JScalar s => Hscalar s
  | JList l =>
      Hlist l ((fix go (l : list json) : Forall P l :=
                  match l with
                  | [] => List.Forall_nil P
                  | x :: l' => @List.Forall_cons _ P x l' (json_nested_ind x) (go l')
                  end) l)
  | JDict d =>
      Hdict d ((fix go (d : list (scalar * json))
                  : Forall (fun kv => P (snd kv)) d :=
                  match d with
                  | [] => List.Forall_nil _
                  | kv :: d' =>
                      @List.Forall_cons _ (fun kv => P (snd kv)) kv d'
                                        (json_nested_ind (snd kv)) (go d')
                  end) d)
  end.
End JsonInd.

(** ** The depth validator of the JSON side *)

Lemma list_max_flat_map {A : Type} (f : A -> list nat) (l : list A) :
  list_max (flat_map f l) = list_max (map (fun x => list_max (f x)) l).
Proof.
  induction l as [|x l IH]; simpl; [reflexivity|].
  rewrite list_max_app, IH. reflexivity.
Qed.

Lemma get_depth_leaf_depths (d : json) :
  forall depth, get_depth d depth = list_max (leaf_depths d depth).
Proof.
  induction d as [s|l IH|items IH] using json_nested_ind; intros depth.
  - simpl. lia.
  - destruct l as [|x l]; [simpl; lia|].
    change (get_depth (JList (x :: l)) depth)
      with (list_max (map (fun item => get_depth item depth) (x :: l))).
    change (leaf_depths (JList (x :: l)) depth)
      with (flat_map (fun item => leaf_depths item depth) (x :: l)).
    rewrite list_max_flat_map. f_equal.
    apply map_ext_Forall. eapply Forall_impl; [exact IH|]. auto.
  - destruct items as [|kv items]; [simpl; lia|].
    change (get_depth (JDict (kv :: items)) depth)
      with (list_max (map (fun kv => get_depth (snd kv) (depth + 1))
                          (kv :: items))).
    change (leaf_depths (JDict (kv :: items)) depth)
      with (flat_map (fun kv => leaf_depths (snd kv) (depth + 1))
                     (kv :: items)).
    rewrite list_max_flat_map. f_equal.
    apply map_ext_Forall. eapply Forall_impl; [exact IH|]. auto.
Qed.

Lemma leaf_depths_nonempty (d : json) :
  forall depth, leaf_depths d depth <> [].
Proof.
  induction d as [s|l IH|items IH] using json_nested_ind; intros depth.
  - discriminate.
  - destruct l as [|x l]; [discriminate|].
    change (leaf_depths (JList (x :: l)) depth)
      with (leaf_depths x depth ++ flat_map (fun i => leaf_depths i depth) l).
    inversion IH as [|? ? Hx _]; subst.
    specialize (Hx depth). destruct (leaf_depths x depth); [done|discriminate].
  - destruct items as [|kv items]; [discriminate|].
    change (leaf_depths (JDict (kv :: items)) depth)
      with (leaf_depths (snd kv) (depth + 1)
              ++ flat_map (fun kv => leaf_depths (snd kv) (depth + 1)) items).
    inversion IH as [|? ? Hx _]; subst.
    specialize (Hx (depth + 1)).
    destruct (leaf_depths (snd kv) (depth + 1)); [done|discriminate].
Qed.

Lemma list_max_all_eq (m : nat) (l : list nat) :
  l <> [] -> Forall (eq m) l -> list_max l = m.
Proof.
  intros Hne Hall. induction Hall as [|x l Hx Hall IH]; [done|].
  subst x. simpl. destruct l as [|y l]; [simpl; lia|].
  rewrite IH by discriminate. lia.
Qed.

(** The two passes of one container level, over the values [xs] met at
    depth [c]: all values report [m] and all values pass the check exactly
    when [P] holds of each. *)
Lemma level_check {A : Type} (P : A -> Prop) (g : A -> nat) (chk : A -> bool)
    (m : nat) (xs : list A) :
  Forall (fun x => P x <-> g x = m /\ chk x = true) xs ->
  (Forall P xs <->
   (if existsb (fun x => negb (g x =? m)) xs then false else forallb chk xs)
   = true).
Proof.
  induction 1 as [|x xs [H1 H2] _ IH]; simpl; [done|].
  rewrite Forall_cons. split.
  - intros [Hx Hxs]. destruct (H1 Hx) as [-> ->].
    rewrite Nat.eqb_refl. simpl. apply IH. exact Hxs.
  - destruct (g x =? m) eqn:E; simpl; [|discriminate].
    apply Nat.eqb_eq in E. intros Hc.
    destruct (existsb _ xs); [discriminate|].
    apply andb_true_iff in Hc as [Hx Hxs]. split; [auto|].
    apply IH. exact Hxs.
Qed.

Lemma uniform_leaves_iff (m : nat) (d : json) :
  forall depth,
    Forall (eq m) (leaf_depths d depth) <->
    get_depth d depth = m /\ check_depth m d depth = true.
Proof.
  induction d as [s|l IH|items IH] using json_nested_ind; intros depth.
  - simpl. rewrite Forall_singleton. intuition.
  - destruct l as [|x l].
    { simpl. rewrite Forall_singleton. intuition. }
    assert (Hlev := level_check
              (fun item => Forall (eq m) (leaf_depths item depth))
              (fun item => get_depth item depth)
              (fun item => check_depth m item depth) m (x :: l)).
    change (check_depth m (JList (x :: l)) depth) with
      (if existsb (fun item => negb (get_depth item depth =? m)) (x :: l)
       then false
       else forallb (fun item => check_depth m item depth) (x :: l)).
    rewrite <- Hlev by (eapply Forall_impl; [exact IH|]; auto).
    change (leaf_depths (JList (x :: l)) depth)
      with (flat_map (fun item => leaf_depths item depth) (x :: l)).
    rewrite get_depth_leaf_depths.
    change (leaf_depths (JList (x :: l)) depth)
      with (flat_map (fun item => leaf_depths item depth) (x :: l)).
    rewrite Forall_flat_map. split; [|tauto].
    intros H. split; [|exact H].
    apply list_max_all_eq.
    + apply (leaf_depths_nonempty (JList (x :: l))).
    + apply Forall_flat_map. exact H.
  - destruct items as [|kv items].
    { simpl. rewrite Forall_singleton. intuition. }
    assert (Hlev := level_check
              (fun kv => Forall (eq m) (leaf_depths (snd kv) (depth + 1)))
              (fun kv => get_depth (snd kv) (depth + 1))
              (fun kv => check_depth m (snd kv) (depth + 1)) m (kv :: items)).
    change (check_depth m (JDict (kv :: items)) depth) with
      (if existsb (fun kv => negb (get_depth (snd kv) (depth + 1) =? m))
                  (kv :: items)
       then false
       else forallb (fun kv => check_depth m (snd kv) (depth + 1))
                    (kv :: items)).
    rewrite <- Hlev by (eapply Forall_impl; [exact IH|]; auto).
    rewrite get_depth_leaf_depths.
    change (leaf_depths (JDict (kv :: items)) depth)
      with (flat_map (fun kv => leaf_depths (snd kv) (depth + 1))
                     (kv :: items)).
    rewrite Forall_flat_map. split; [|tauto].
    intros H. split; [|exact H].
    apply list_max_all_eq.
    + apply (leaf_depths_nonempty (JDict (kv :: items))).
    + apply Forall_flat_map. exact H.
Qed.

(** C6.  The validator's [max_depth] is the greatest depth reached by a
    leaf; the validator accepts exactly when every leaf reaches that depth;
    a tree with a leaf at depth 2 and a leaf at depth 3 is rejected. *)
Theorem validate_json_depth_uniform (data : json) :
  get_depth data 0 = list_max (leaf_depths data 0) /\
  (_validate_json_depth data = Ok tt <->
   Forall (fun n => n = get_depth data 0) (leaf_depths data 0)) /\
  (In 2 (leaf_depths data 0) -> In 3 (leaf_depths data 0) ->
   _validate_json_depth data = Err DepthMismatch).
Proof.
  assert (Hiff : _validate_json_depth data = Ok tt <->
                 Forall (fun n => n = get_depth data 0) (leaf_depths data 0)).
  { unfold _validate_json_depth.
    assert (H := uniform_leaves_iff (get_depth data 0) data 0).
    assert (E : Forall (fun n => n = get_depth data 0) (leaf_depths data 0)
                <-> Forall (eq (get_depth data 0)) (leaf_depths data 0)).
    { apply Forall_proper; [|reflexivity]. intros n. split; auto. }
    rewrite E, H.
    destruct (check_depth (get_depth data 0) data 0); split;
      try tauto; try discriminate. intros [_ ?]. discriminate. }
  split; [apply get_depth_leaf_depths|]. split; [exact Hiff|].
  intros H2 H3. unfold _validate_json_depth in *.
  destruct (check_depth (get_depth data 0) data 0); [|reflexivity].
  exfalso. destruct Hiff as [Hall _]. specialize (Hall eq_refl).
  rewrite Forall_forall in Hall. apply list_elem_of_In in H2, H3.
  pose proof (Hall _ H2). pose proof (Hall _ H3). lia.
Qed.


Lemma validate_json_depth_uniform_witness :
  In 2 (leaf_depths mixed_depth_tree 0) /\
  In 3 (leaf_depths mixed_depth_tree 0) /\
  _validate_json_depth mixed_depth_tree = Err DepthMismatch.
Proof.
  assert (H2 : In 2 (leaf_depths mixed_depth_tree 0)) by (simpl; auto).
  assert (H3 : In 3 (leaf_depths mixed_depth_tree 0)) by (simpl; auto).
  split; [exact H2|]. split; [exact H3|].
  exact (proj2 (proj2 (validate_json_depth_uniform mixed_depth_tree)) H2 H3).
Defined.

(** ** The flattener on an empty list *)


(** C3.  A key whose value is the empty list is not skipped: the value falls
    through to the last branch of the loop, which emits the row of the key
    with the empty list as its terminal value.  The tree
    [{"A": {"B": []}}] flattens to that one row. *)
Theorem flatten_empty_list_emits_row :
  (forall (k : scalar) (rest : list (scalar * json)) (parent_key : row),
      _flatten_dict (JDict ((k, JList []) :: rest)) parent_key
      = (parent_key ++ [JScalar k; JList []])
          :: _flatten_dict (JDict rest) parent_key) /\
  _flatten_dict empty_leaf_tree []
  = [[JScalar (SStr "A"); JScalar (SStr "B"); JList []]].
Proof.
  split; [intros k rest parent_key|]; reflexivity.
Qed.

(** ** The entry points *)

Section EntryPointFacts.

Variable path_stem : string -> string.

(** On the json_file path a tree the validator rejects stops the call
    before anything is written. *)
Lemma json_file_depth_mismatch (self : converter) (w : world)
    (jf : string) (t : json) :
  truthy (json_file self) = Some jf ->
  files w !! jf = Some (FJson t) ->
  _validate_json_depth t = Err DepthMismatch ->
  json_to_excel path_stem self w
  = (Err DepthMismatch, set_data_dict self t, opened (OpenRead jf) w).
Proof.
  intros Hjf Hfile Hbad. unfold json_to_excel, _load_json.
  rewrite Hjf, Hfile, Hbad. reflexivity.
Qed.

(** C2.  The data_dict path of json_to_excel never calls the validator: for
    the tree with one branch of depth 2 and one of depth 3, which the
    validator rejects, the call returns normally and stores a sheet. *)
Theorem json_to_excel_data_dict_not_validated :
  let self := Converter None (Some mixed_depth_tree) (Some "out.xlsx") None in
  _validate_json_depth mixed_depth_tree = Err DepthMismatch /\
  exists ws w',
    json_to_excel path_stem self (World ∅ []) = (Ok tt, self, w') /\
    files w' !! "out.xlsx" = Some (FSheet ws) /\
    io_log w' = [OpenWrite "out.xlsx"].
Proof.
  split; [reflexivity|].
  eexists _, _. split; [vm_compute; reflexivity|].
  split; vm_compute; reflexivity.
Qed.


End EntryPointFacts.




Section JsonFilePath.

Variable path_stem : string -> string.




(** C10.  For the empty mapping the validator passes, the flattener yields
    no row and the maximum of line 100 is taken over nothing: the call
    raises the ValueError of max(), no file has been opened for writing
    and the files are as before.  This holds on the json_file path and on
    the data_dict path. *)
Theorem empty_mapping_raises (self : converter) (w : world) :
  _flatten_dict (JDict []) [] = [] /\
  (forall jf,
      truthy (json_file self) = Some jf ->
      files w !! jf = Some (FJson (JDict [])) ->
      json_to_excel path_stem self w
      = (Err EmptySequence,
         set_excel_file (set_data_dict self (JDict []))
                        (path_stem jf +:+ ".xlsx"),
         opened (OpenRead jf) w)) /\
  (forall path,
      truthy (json_file self) = None ->
      data_dict self = Some (JDict []) ->
      excel_file self = Some path ->
      json_to_excel path_stem self w = (Err EmptySequence, self, w)).
Proof.
  split; [reflexivity|]. split.
  - intros jf Hjf Hfile. unfold json_to_excel, _load_json.
    rewrite Hjf, Hfile. reflexivity.
  - intros path Hjf Hd Hx. unfold json_to_excel.
    rewrite Hjf, Hd, Hx. reflexivity.
Qed.

End JsonFilePath.


Lemma empty_mapping_raises_witness :
  let w := World (<["e.json" := FJson (JDict [])]> ∅) [] in
  json_to_excel posix_stem (Converter (Some "e.json") None None None) w
  = (Err EmptySequence,
     Converter (Some "e.json") (Some (JDict [])) (Some "e.xlsx") None,
     opened (OpenRead "e.json") w) /\
  json_to_excel posix_stem
                (Converter None (Some (JDict [])) (Some "e.xlsx") None) w
  = (Err EmptySequence,
     Converter None (Some (JDict [])) (Some "e.xlsx") None, w).
Proof.
  intros w. split.
  - exact (proj1 (proj2 (empty_mapping_raises posix_stem
                           (Converter (Some "e.json") None None None) w))
                 "e.json" eq_refl eq_refl).
  - exact (proj2 (proj2 (empty_mapping_raises posix_stem
                           (Converter None (Some (JDict [])) (Some "e.xlsx")
                                      None) w))
                 "e.xlsx" eq_refl eq_refl eq_refl).
Defined.


Lemma py_eqb_refl (x : scalar) : py_eqb x x = true.
Proof.
  destruct x as [|b|n|s]; simpl; auto.
  - destruct b; reflexivity.
  - apply Z.eqb_refl.
  - apply String.eqb_refl.
Qed.

Lemma py_eqb_sym (x y : scalar) : py_eqb x y = py_eqb y x.
Proof.
  destruct x as [|b|n|s], y as [|c|m|t]; simpl; auto.
  - destruct b, c; reflexivity.
  - apply Z.eqb_sym.
  - apply Z.eqb_sym.
  - apply Z.eqb_sym.
  - apply String.eqb_sym.
Qed.


(** Two plain values equal to a third, whatever it is, are the same. *)
Lemma py_eqb_plain_common (x y p : scalar) :
  plain x = true -> plain y = true ->
  py_eqb x p = true -> py_eqb y p = true -> x = y.
Proof.
  destruct x as [|b|n|s], y as [|c|m|t], p as [|d|k|u]; simpl;
    try discriminate; intros _ _ H1 H2;
    try (apply Z.eqb_eq in H1); try (apply Z.eqb_eq in H2);
    try (apply String.eqb_eq in H1); try (apply String.eqb_eq in H2);
    congruence.
Qed.

Lemma plain_notna (x : scalar) : plain x = true -> notna x = true.
Proof. destruct x; simpl; auto. Qed.

(** ** The ranges _merge_cells produces *)

Section MergeLoop.

Variables (col last_row : nat) (value_at : nat -> scalar).

(** Every range the loop emits is a run of equal cells of its column. *)
Lemma merge_loop_runs (n : nat) :
  forall row start_row prev_value,
    2 <= start_row <= row ->
    row + n = last_row + 1 ->
    (forall r, start_row <= r < row ->
               py_eqb (value_at r) prev_value = true) ->
    Forall (run_of col last_row value_at)
           (merge_loop col last_row (map value_at (seq row n))
                       row start_row prev_value).
Proof.
  induction n as [|n IH]; intros row start_row prev_value Hs Hlen Hrun.
  - simpl. destruct (negb (start_row =? last_row) && is_not_None prev_value);
      [|constructor].
    constructor; [|constructor]. simpl.
    repeat split; try lia. exists prev_value.
    intros r Hr. apply Hrun. lia.
  - simpl. replace (S row) with (row + 1) by lia.
    destruct (py_eqb (value_at row) prev_value) eqn:E; simpl.
    + apply IH; try lia.
      intros r Hr. destruct (decide (r = row)) as [->|Hne]; [exact E|].
      apply Hrun. lia.
    + apply Forall_app. split.
      * destruct (negb (start_row =? row - 1) && is_not_None prev_value)
          eqn:G; [|constructor].
        constructor; [|constructor]. simpl.
        apply andb_true_iff in G as [G _].
        apply negb_true_iff, Nat.eqb_neq in G.
        repeat split; try lia. exists prev_value.
        intros r Hr. apply Hrun. lia.
      * apply IH; try lia.
        intros r Hr. assert (r = row) as -> by lia. apply py_eqb_refl.
Qed.

End MergeLoop.

(** A cell that a merge has blanked lies on row 3 or below and in a run with
    the cell above it. *)
Lemma merged_tail_run (cells : list (list scalar)) (r c : nat) :
  in_merged_tail (_merge_cells cells) r c = true ->
  3 <= r /\
  exists p, py_eqb (cell_value cells r c) p = true /\
            py_eqb (cell_value cells (r - 1) c) p = true.
Proof.
  unfold in_merged_tail. rewrite existsb_exists.
  intros ([[col first] last] & Hin & Hcond).
  apply andb_true_iff in Hcond as [Hcond Hlast].
  apply andb_true_iff in Hcond as [Hcol Hfirst].
  apply Nat.eqb_eq in Hcol. apply Nat.ltb_lt in Hfirst.
  apply Nat.leb_le in Hlast. subst col.
  unfold _merge_cells in Hin. apply in_flat_map in Hin as (col0 & _ & Hin).
  destruct (decide (max_row cells = 0)) as [Hz|Hnz].
  { unfold column_from in Hin. rewrite Hz in Hin. simpl in Hin.
    destruct Hin. }
  assert (Hruns := merge_loop_runs (col0 + 1) (max_row cells)
                     (fun r => cell_value cells r (col0 + 1))
                     (max_row cells + 1 - 2) 2 2 SNull).
  unfold column_from in Hin.
  rewrite Forall_forall in Hruns.
  specialize (Hruns ltac:(lia) ltac:(lia) ltac:(intros; lia)
                    _ (proj2 (list_elem_of_In _ _) Hin)).
  simpl in Hruns. destruct Hruns as (-> & H2 & _ & p & Hp).
  split; [lia|]. exists p. split; apply Hp; lia.
Qed.

Lemma nth_tl {A : Type} (j : nat) (l : list A) (d : A) :
  nth j (tl l) d = nth (S j) l d.
Proof. destruct l; [destruct j|]; reflexivity. Qed.

(** Filling a row in which some cells were blanked gives the row back when
    every blanked cell repeats the cell above it. *)
Lemma fill_row_blanked (r : list scalar) :
  forall (above : list scalar) (blank : nat -> bool),
    (forall j x, r !! j = Some x ->
                 notna x = true /\
                 (blank j = true -> nth j above SNull = x)) ->
    fill_row above (imap (fun j v => if blank j then SNull else v) r) = r.
Proof.
  induction r as [|x r IH]; intros above blank H; [reflexivity|].
  rewrite imap_cons. simpl.
  destruct (H 0 x eq_refl) as [Hx Hb]. f_equal.
  - destruct (blank 0); simpl.
    + rewrite <- (Hb eq_refl). destruct above; reflexivity.
    + rewrite Hx. reflexivity.
  - apply (IH (tl above) (blank ∘ S)).
    intros j y Hj. destruct (H (S j) y Hj) as [Hy Hby].
    split; [exact Hy|]. rewrite nth_tl. exact Hby.
Qed.

Lemma ffill_blanked (data : list (list scalar)) :
  forall (above : list scalar) (blank : nat -> nat -> bool),
    (forall i r j x,
        data !! i = Some r -> r !! j = Some x ->
        notna x = true /\
        (blank i j = true ->
         nth j (match i with 0 => above | S i' => nth i' data [] end) SNull
         = x)) ->
    ffill_from above
      (imap (fun i r => imap (fun j v => if blank i j then SNull else v) r)
            data)
    = data.
Proof.
  induction data as [|r data IH]; intros above blank H; [reflexivity|].
  rewrite imap_cons. simpl.
  rewrite fill_row_blanked by (intros j x Hj; exact (H 0 r j x eq_refl Hj)).
  f_equal. apply (IH r (blank ∘ S)).
  intros i r' j x Hi Hj. destruct (H (S i) r' j x Hi Hj) as [Hx Hb].
  split; [exact Hx|]. intros Hblank. specialize (Hb Hblank).
  destruct i; exact Hb.
Qed.

(** The fill inverts the merges on a table of plain cells: the rows read
    from the sheet are the rows written below the header. *)
Lemma read_merged_plain (n : nat) (header : list scalar)
    (data : list (list scalar)) :
  plain_grid n data ->
  let cells := header :: data in
  read_rows (Worksheet (blank_merged (_merge_cells cells) cells)
                       (_merge_cells cells))
  = data.
Proof.
  intros Hplain cells. unfold read_rows, ffill, blank_merged. simpl ws_cells.
  subst cells. simpl tail. set (cells := header :: data).
  apply (ffill_blanked data []
           (fun i j => in_merged_tail (_merge_cells cells) (S i + 1) (j + 1))).
  intros i r j x Hi Hj.
  unfold plain_grid in Hplain. rewrite Forall_forall in Hplain.
  assert (Hr := Hplain r (list_elem_of_lookup_2 _ _ _ Hi)).
  destruct Hr as [Hlen Hr]. rewrite Forall_forall in Hr.
  assert (Hx := Hr x (list_elem_of_lookup_2 _ _ _ Hj)).
  split; [apply plain_notna; exact Hx|].
  intros Hblank. apply merged_tail_run in Hblank as (H3 & p & Hp1 & Hp2).
  destruct i as [|i']; [lia|].
  assert (Ecur : cell_value cells (S (S i') + 1) (j + 1) = x).
  { unfold cell_value, cells.
    replace (S (S i') + 1 - 1) with (S (S i')) by lia.
    replace (j + 1 - 1) with j by lia. simpl.
    rewrite (nth_lookup_Some _ _ _ _ Hi).
    apply (nth_lookup_Some _ _ _ _ Hj). }
  assert (Hlt : j < n).
  { rewrite <- Hlen. apply lookup_lt_Some in Hj. exact Hj. }
  assert (Hi'lt : i' < length data).
  { apply lookup_lt_Some in Hi. lia. }
  destruct (lookup_lt_is_Some_2 data i' Hi'lt) as [r0 Hr0].
  assert (Hr0p := Hplain r0 (list_elem_of_lookup_2 _ _ _ Hr0)).
  destruct Hr0p as [Hlen0 Hr0p]. rewrite Forall_forall in Hr0p.
  destruct (lookup_lt_is_Some_2 r0 j ltac:(lia)) as [y Hy].
  assert (Hyp := Hr0p y (list_elem_of_lookup_2 _ _ _ Hy)).
  assert (Eabove : cell_value cells (S (S i') + 1 - 1) (j + 1) = y).
  { unfold cell_value, cells.
    replace (S (S i') + 1 - 1 - 1) with (S i') by lia.
    replace (j + 1 - 1) with j by lia. simpl.
    rewrite (nth_lookup_Some _ _ _ _ Hr0).
    apply (nth_lookup_Some _ _ _ _ Hy). }
  rewrite Ecur in Hp1. rewrite Eabove in Hp2.
  rewrite (nth_lookup_Some _ _ _ _ Hr0), (nth_lookup_Some _ _ _ _ Hy).
  apply (py_eqb_plain_common y x p); assumption.
Qed.

Lemma to_cells_scalars (r : list scalar) : to_cells (map JScalar r) = Ok r.
Proof. induction r as [|x r IH]; simpl; [|rewrite IH]; reflexivity. Qed.

Lemma to_excel_frame_of (data : list (list scalar)) :
  to_excel (frame_of data) = Ok data.
Proof.
  unfold frame_of. induction data as [|r data IH]; simpl; [reflexivity|].
  rewrite to_cells_scalars. simpl. rewrite IH. reflexivity.
Qed.

(** Writing a table of plain cells and reading the sheet gives the table. *)
Lemma sheet_of_plain (n : nat) (data : list (list scalar)) :
  plain_grid n data ->
  exists ws, sheet_of (frame_of data) = Ok ws /\ read_rows ws = data.
Proof.
  intros Hplain. unfold sheet_of. rewrite to_excel_frame_of. simpl.
  eexists. split; [reflexivity|].
  apply (read_merged_plain n). exact Hplain.
Qed.




(** ** Dict updates *)



Lemma dict_set_set (k : scalar) (v1 v2 : json) (d : list (scalar * json)) :
  dict_set k v2 (dict_set k v1 d) = dict_set k v2 d.
Proof.
  induction d as [|[k' v'] d IH]; simpl.
  - rewrite py_eqb_refl. reflexivity.
  - destruct (py_eqb k k') eqn:E; simpl; rewrite E; [|rewrite IH];
      reflexivity.
Qed.



(** ** The rebuilder keeps the values of a list distinct *)



Lemma list_mem_app (x : scalar) (l1 l2 : list json) :
  list_mem x (l1 ++ l2) = list_mem x l1 || list_mem x l2.
Proof. unfold list_mem. apply existsb_app. Qed.









(** ** The depth validator of the table side *)

(** C5.  The validator does not look at the rows of the sheet.  It builds a
    frame from the rebuilt tree, one row per top-level key and one column per
    second-level key, and compares the numbers of cells present in those
    rows.  The sheet below has three rows of four cells each, none missing;
    its first key has two children and its second key one, and
    excel_to_json raises DepthMismatch without writing the document. *)
Theorem excel_depth_rejects_uniform_rows :
  exists ws,
    sheet_of (frame_of uneven_rows) = Ok ws /\
    read_rows ws = uneven_rows /\
    Forall (fun r => row_depth r = 4) (read_rows ws) /\
    _build_dict (read_rows ws) = Ok uneven_tree /\
    (let? df := match uneven_tree with
                | JDict d => from_dict_index d
                | _ => Err AttributeError
                end in row_depths df) = Ok [2; 1] /\
    excel_to_json (Converter None None (Some "c.xlsx") (Some "c.json"))
                  (World {["c.xlsx" := FSheet ws]} [])
    = (Err DepthMismatch,
       World {["c.xlsx" := FSheet ws]} [OpenRead "c.xlsx"]).
Proof.
  eexists. split; [vm_compute; reflexivity|].
  split; [reflexivity|]. split; [repeat constructor|].
  split; [reflexivity|]. split; [reflexivity|].
  vm_compute. reflexivity.
Qed.

(** ** Rows that share their first key *)






(** ** The table of a uniform tree *)







(** ** Rebuilding the table of a uniform tree *)









(** The other two conditions of the round trip.  True equals 1 for the merge
    pass: the run of the two is merged and the fill repeats the number. *)
Example round_trip_bool_leaf :
  round_trip bool_leaf_tree "a.xlsx" (World ∅ [])
  = Ok (JDict [(SStr "A", JDict [(SStr "x", JList [JScalar (SNum 1)]);
                                 (SStr "y", JList [JScalar (SNum 1)])])]).
Proof. vm_compute. reflexivity. Qed.

(** A tree whose only branch is an empty mapping passes the validator and
    has no row. *)
Example round_trip_empty_branch :
  _validate_json_depth empty_branch_tree = Ok tt /\
  round_trip empty_branch_tree "a.xlsx" (World ∅ []) = Err EmptySequence.
Proof. split; reflexivity. Qed.

(** * Further properties *)

(** ** The flattener *)

Lemma flatten_cons (k : scalar) (v : json) (d : list (scalar * json))
    (parent_key : row) :
  _flatten_dict (JDict ((k, v) :: d)) parent_key
  = item_rows parent_key k v ++ _flatten_dict (JDict d) parent_key.
Proof. reflexivity. Qed.

Lemma flatten_parent_key_items (d : list (scalar * json)) :
  Forall (fun kv => forall p q,
              _flatten_dict (snd kv) (p ++ q)
              = map (app p) (_flatten_dict (snd kv) q)) d ->
  forall p q,
    _flatten_dict (JDict d) (p ++ q) = map (app p) (_flatten_dict (JDict d) q).
Proof.
  induction 1 as [|[k v] d Hv _ IH]; intros p q; [reflexivity|].
  rewrite !flatten_cons, map_app, IH. f_equal. simpl in Hv.
  destruct v as [s|l|dv]; simpl.
  - rewrite <- app_assoc. reflexivity.
  - destruct l as [|x l]; simpl; rewrite <- ?app_assoc; [reflexivity|].
    f_equal. rewrite map_map. apply map_ext. intros item.
    rewrite <- app_assoc. reflexivity.
  - rewrite <- app_assoc. apply Hv.
Qed.

Lemma flatten_row_length (t : json) (q : row) :
  Forall (fun r => length q + 2 <= length r) (_flatten_dict t q).
Proof.
  - revert q. induction t as [s|l _|d IH] using json_nested_ind;
      intros q; [constructor|constructor|].
    induction IH as [|[k v] d Hv _ IHd]; [constructor|].
    rewrite flatten_cons. apply Forall_app. split; [|exact IHd].
    simpl in Hv. destruct v as [s|l|dv]; simpl.
    + constructor; [|constructor]. rewrite length_app. simpl. lia.
    + destruct l as [|x l].
      * constructor; [|constructor]. rewrite length_app. simpl. lia.
      * apply Forall_map, Forall_forall. intros item _.
        rewrite length_app. simpl. lia.
    + eapply Forall_impl; [apply (Hv (q ++ [JScalar k]))|].
      simpl. intros r. rewrite length_app. simpl. lia.
Qed.

(** X1.  The rows of a call with a parent key are the rows of the call
    without it, each behind the parent key; every row holds at least a key
    and a value. *)
Theorem flatten_parent_key (t : json) (p q : row) :
  _flatten_dict t (p ++ q) = map (app p) (_flatten_dict t q) /\
  Forall (fun r => length q + 2 <= length r) (_flatten_dict t q).
Proof.
  split; [|apply flatten_row_length].
  revert p q. induction t as [s|l _|d IH] using json_nested_ind;
    intros p q; [reflexivity|reflexivity|].
  apply flatten_parent_key_items. exact IH.
Qed.


(** X2.  The flattener gives no row exactly for a dict without any leaf, and
    that is when the frame cannot be built for want of a row. *)
Theorem flatten_no_row (d : list (scalar * json)) (parent_key : row) :
  (_flatten_dict (JDict d) parent_key = [] <-> hollow (JDict d) = true) /\
  (_dict_to_dataframe (JDict d) = Err EmptySequence <->
   hollow (JDict d) = true).
Proof.
  assert (H : forall t q,
             match t with
             | JDict _ => _flatten_dict t q = [] <-> hollow t = true
             | _ => True
             end).
  { induction t as [s|l _|d' IH] using json_nested_ind; intros q; try exact I.
    induction IH as [|[k v] d' Hv _ IHd]; [simpl; tauto|].
    rewrite flatten_cons. change (hollow (JDict ((k, v) :: d')))
      with (hollow v && hollow (JDict d')).
    rewrite andb_true_iff, <- IHd. simpl in Hv.
    split.
    - intros E. apply app_eq_nil in E as [E1 E2]. split; [|exact E2].
      destruct v as [s|l|dv]; simpl in E1; try discriminate.
      + destruct l; discriminate.
      + apply (Hv (q ++ [JScalar k])). exact E1.
    - intros [E1 E2]. rewrite E2, app_nil_r.
      destruct v as [s|l|dv]; try discriminate.
      apply (Hv (q ++ [JScalar k])). exact E1. }
  split; [exact (H (JDict d) parent_key)|].
  unfold _dict_to_dataframe. rewrite <- (H (JDict d) []).
  destruct (_flatten_dict (JDict d) []); split; try discriminate; auto.
Qed.

Lemma list_max_ge (l : list nat) (x : nat) : x ∈ l -> x <= list_max l.
Proof.
  induction 1 as [x l|x y l _ IH]; simpl; lia.
Qed.

Lemma list_max_elem (l : list nat) : l <> [] -> list_max l ∈ l.
Proof.
  induction l as [|x l IH]; [done|]. intros _. simpl.
  destruct l as [|y l]; [simpl; rewrite Nat.max_0_r; left|].
  destruct (Nat.max_spec x (list_max (y :: l))) as [[_ ->]|[_ ->]].
  - right. apply IH. discriminate.
  - left.
Qed.

(** X3.  The frame is a rectangle: it has one row per flattened row, each
    the flattened row followed by missing values up to the length of the
    longest, which is at least two; the longest rows are not padded. *)
Theorem dataframe_rectangle (t : json) (df : list row) :
  _dict_to_dataframe t = Ok df ->
  exists n,
    2 <= n /\
    Forall (fun r => length r = n) df /\
    Forall2 (fun r0 r => r = r0 ++ replicate (n - length r0) NA)
            (_flatten_dict t []) df /\
    Exists (fun r0 => length r0 = n) (_flatten_dict t []).
Proof.
  unfold _dict_to_dataframe. destruct t as [s|l|d]; try discriminate.
  destruct (_flatten_dict (JDict d) []) as [|r0 rows] eqn:E; [discriminate|].
  set (all := r0 :: rows) in *. set (n := list_max (map length all)).
  intros Hdf.
  assert (Edf : df = map (pad n) all) by (injection Hdf as <-; reflexivity).
  rewrite Edf. clear Hdf Edf.
  assert (Hlen := flatten_row_length (JDict d) []).
  rewrite E in Hlen. fold all in Hlen.
  assert (Hmax : forall r, r ∈ all -> length r <= n).
  { intros r Hr. apply list_max_ge. apply list_elem_of_fmap_2. exact Hr. }
  assert (Hn : n ∈ map length all) by (apply list_max_elem; discriminate).
  exists n. split; [|split; [|split]].
  - apply list_elem_of_fmap in Hn as (r & -> & Hr).
    rewrite Forall_forall in Hlen. specialize (Hlen r Hr). simpl in Hlen. lia.
  - apply Forall_map, Forall_forall. intros r Hr. unfold pad.
    rewrite length_app, length_replicate. specialize (Hmax r Hr). lia.
  - apply Forall2_fmap_r, Forall_Forall2_diag, Forall_forall.
    intros r _. reflexivity.
  - apply Exists_exists. apply list_elem_of_fmap in Hn as (r & Hr1 & Hr2).
    exists r. split; [exact Hr2|]. symmetry. exact Hr1.
Qed.

Lemma dataframe_rectangle_witness :
  exists n,
    2 <= n /\
    Forall (fun r => length r = n)
           [[JScalar (SStr "A"); JScalar (SStr "x"); JScalar (SStr "v"); NA];
            [JScalar (SStr "B"); JScalar (SStr "y"); JScalar (SStr "z");
             JScalar (SStr "w")]].
Proof.
  destruct (dataframe_rectangle mixed_depth_tree _ eq_refl)
    as (n & Hn & Hrect & _).
  exists n. split; [exact Hn|exact Hrect].
Defined.

(** ** The validator and the rows *)

Lemma scalar_items_lengths (parent_key : row) (k : scalar)
    (items : list json) :
  forallb is_scalar items = true ->
  map length (map (fun item => parent_key ++ [JScalar k; item]) items)
  = map S (flat_map (fun item => leaf_depths item (length parent_key + 1))
                    items).
Proof.
  induction items as [|y items IHi]; intros Hv; [reflexivity|].
  simpl in Hv. apply andb_true_iff in Hv as [Hy Hitems].
  destruct y; try discriminate. simpl.
  rewrite length_app. simpl. f_equal; [lia|]. apply IHi. exact Hitems.
Qed.

Lemma row_lengths_items (d : list (scalar * json)) (parent_key : row) :
  forallb (fun kv => row_leaves (snd kv)) d = true ->
  Forall (fun kv => forall q,
              row_leaves (snd kv) = true ->
              match snd kv with
              | JDict _ =>
                  map length (_flatten_dict (snd kv) q)
                  = map S (leaf_depths (snd kv) (length q))
              | _ => True
              end) d ->
  map length (_flatten_dict (JDict d) parent_key)
  = map S (flat_map (fun kv => leaf_depths (snd kv) (length parent_key + 1))
                    d).
Proof.
  induction d as [|[k v] d IHd]; intros Hrl IH; [reflexivity|].
  rewrite flatten_cons, map_app. simpl flat_map. rewrite map_app.
  simpl in Hrl. apply andb_true_iff in Hrl as [Hv Hd].
  inversion IH as [|? ? IHv IH']; subst. simpl in IHv.
  f_equal; [|exact (IHd Hd IH')].
  destruct v as [s|l|dv].
  - simpl. rewrite length_app. simpl. f_equal. lia.
  - destruct l as [|x l].
    + simpl. rewrite length_app. simpl. f_equal. lia.
    + change (leaf_depths (JList (x :: l)) (length parent_key + 1))
        with (flat_map (fun item => leaf_depths item (length parent_key + 1))
                       (x :: l)).
      change (item_rows parent_key k (JList (x :: l)))
        with (map (fun item => parent_key ++ [JScalar k; item]) (x :: l)).
      apply scalar_items_lengths. exact Hv.
  - simpl item_rows.
    etransitivity; [exact (IHv (parent_key ++ [JScalar k]) Hv)|].
    rewrite length_app. reflexivity.
Qed.

Lemma row_lengths_leaf_depths (t : json) :
  forall parent_key,
    row_leaves t = true ->
    match t with
    | JDict _ =>
        map length (_flatten_dict t parent_key)
        = map S (leaf_depths t (length parent_key))
    | _ => True
    end.
Proof.
  induction t as [s|l _|d IH] using json_nested_ind; intros parent_key Hrl;
    try exact I.
  destruct d as [|kv0 d0]; [discriminate|].
  apply (row_lengths_items (kv0 :: d0) parent_key Hrl IH).
Qed.

(** X4.  On a tree each of whose leaves gives a row (lists of scalars, no
    empty dict) the validator accepts exactly when all flattened rows have
    the same length, that is, when the frame needs no padding. *)
Theorem validate_json_depth_rows (d : list (scalar * json)) :
  row_leaves (JDict d) = true ->
  (_validate_json_depth (JDict d) = Ok tt <->
   forall r1 r2,
     r1 ∈ _flatten_dict (JDict d) [] -> r2 ∈ _flatten_dict (JDict d) [] ->
     length r1 = length r2).
Proof.
  intros Hrl.
  assert (Hlen := row_lengths_leaf_depths (JDict d) [] Hrl).
  simpl length in Hlen.
  set (m := get_depth (JDict d) 0).
  assert (Hval : _validate_json_depth (JDict d) = Ok tt <->
                 Forall (eq m) (leaf_depths (JDict d) 0)).
  { rewrite (uniform_leaves_iff m (JDict d) 0).
    unfold _validate_json_depth. fold m.
    destruct (check_depth m (JDict d) 0); split; try tauto; try discriminate.
    intros [_ ?]. discriminate. }
  rewrite Hval. split.
  - intros Hall r1 r2 H1 H2.
    assert (forall r, r ∈ _flatten_dict (JDict d) [] -> length r = S m)
      as Hr.
    { intros r Hin.
      assert (Hl : length r ∈ map length (_flatten_dict (JDict d) []))
        by (apply list_elem_of_fmap_2; exact Hin).
      rewrite Hlen in Hl. apply list_elem_of_fmap in Hl as (k & -> & Hk).
      rewrite Forall_forall in Hall. rewrite (Hall k Hk). reflexivity. }
    rewrite (Hr r1 H1), (Hr r2 H2). reflexivity.
  - intros Hsame. apply Forall_forall. intros k Hk.
    assert (Hm : m ∈ leaf_depths (JDict d) 0).
    { unfold m. rewrite get_depth_leaf_depths. apply list_max_elem.
      apply leaf_depths_nonempty. }
    assert (HSk : S k ∈ map length (_flatten_dict (JDict d) [])).
    { rewrite Hlen. apply list_elem_of_fmap_2. exact Hk. }
    assert (HSm : S m ∈ map length (_flatten_dict (JDict d) [])).
    { rewrite Hlen. apply list_elem_of_fmap_2. exact Hm. }
    apply list_elem_of_fmap in HSk as (r1 & E1 & H1).
    apply list_elem_of_fmap in HSm as (r2 & E2 & H2).
    specialize (Hsame r1 r2 H1 H2). lia.
Qed.

Lemma validate_json_depth_rows_witness :
  _validate_json_depth sample_tree = Ok tt.
Proof.
  apply (proj2 (validate_json_depth_rows
                  [(SStr "A",
                    JDict [(SStr "x", JList [JScalar (SStr "v1");
                                             JScalar (SStr "v2")]);
                           (SStr "y", JList [JScalar (SStr "v3")])])]
                  eq_refl)).
  intros r1 r2 H1 H2.
  vm_compute in H1, H2.
  repeat (apply elem_of_cons in H1 as [->|H1]);
    repeat (apply elem_of_cons in H2 as [->|H2]);
    try reflexivity; try (apply elem_of_nil in H1; destruct H1);
    try (apply elem_of_nil in H2; destruct H2).
Defined.



(** ** The merge pass *)

Lemma py_eqb_trans (x y z : scalar) :
  py_eqb x y = true -> py_eqb y z = true -> py_eqb x z = true.
Proof.
  destruct x as [|a|n|s], y as [|b|m|t], z as [|c|k|u]; simpl;
    try discriminate; try reflexivity; intros H1 H2;
    try (apply Z.eqb_eq in H1); try (apply Z.eqb_eq in H2);
    try (apply String.eqb_eq in H1); try (apply String.eqb_eq in H2);
    try (apply Bool.eqb_prop in H1); try (apply Bool.eqb_prop in H2);
    subst; try (apply Z.eqb_refl); try (apply String.eqb_refl);
    try (apply Bool.eqb_reflx);
    try (destruct a, b; simpl in *; congruence);
    try (destruct a, c; simpl in *; congruence);
    try (destruct b, c; simpl in *; congruence).
Qed.

Lemma py_eqb_not_None (x p : scalar) :
  py_eqb x p = true -> is_not_None x = is_not_None p.
Proof. destruct x, p; simpl; auto; discriminate. Qed.

Lemma in_merged_tail_app (m1 m2 : list range) (r c : nat) :
  in_merged_tail (m1 ++ m2) r c
  = in_merged_tail m1 r c || in_merged_tail m2 r c.
Proof. unfold in_merged_tail. apply existsb_app. Qed.

Lemma in_merged_tail_single (col first last r c : nat) :
  in_merged_tail [(col, first, last)] r c = true <->
  col = c /\ first < r <= last.
Proof.
  unfold in_merged_tail. simpl. rewrite orb_false_r, !andb_true_iff.
  rewrite Nat.eqb_eq, Nat.ltb_lt, Nat.leb_le. tauto.
Qed.

(** The cells that the ranges of one column's loop blank: those past the
    start of the current run that are not blank and repeat the cell above. *)
Lemma merge_loop_tail (col last_row : nat) (value_at : nat -> scalar)
    (n : nat) :
  forall row start_row prev_value,
    2 <= start_row <= row ->
    row + n = last_row + 1 ->
    (forall r, start_row <= r < row ->
               py_eqb (value_at r) prev_value = true) ->
    forall r,
      in_merged_tail
        (merge_loop col last_row (map value_at (seq row n))
                    row start_row prev_value) r col = true <->
      start_row < r <= last_row /\
      is_not_None (value_at r) = true /\
      py_eqb (value_at r) (value_at (r - 1)) = true.
Proof.
  assert (Hrun : forall start_row row prev_value r,
             (forall r, start_row <= r < row ->
                        py_eqb (value_at r) prev_value = true) ->
             start_row < r < row ->
             py_eqb (value_at r) (value_at (r - 1)) = true /\
             is_not_None (value_at r) = is_not_None prev_value).
  { intros start_row row prev_value r Hinv Hr. split.
    - apply (py_eqb_trans _ prev_value); [apply Hinv; lia|].
      rewrite py_eqb_sym. apply Hinv. lia.
    - apply py_eqb_not_None. apply Hinv. lia. }
  induction n as [|n IH]; intros row start_row prev_value Hs Hlen Hinv r.
  - simpl.
    destruct (negb (start_row =? last_row) && is_not_None prev_value) eqn:G.
    + apply andb_true_iff in G as [_ Gp].
      rewrite in_merged_tail_single. split.
      * intros [_ Hr].
        destruct (Hrun start_row row prev_value r Hinv ltac:(lia)) as [H1 H2].
        rewrite H2. auto.
      * intros [Hr _]. auto.
    + split; [discriminate|]. intros (Hr & Hnn & _). exfalso.
      destruct (Hrun start_row row prev_value r Hinv ltac:(lia)) as [_ H2].
      rewrite H2 in Hnn. rewrite Hnn, andb_true_r in G.
      apply negb_false_iff, Nat.eqb_eq in G. lia.
  - simpl. replace (S row) with (row + 1) by lia.
    destruct (py_eqb (value_at row) prev_value) eqn:E; simpl.
    + apply IH; try lia.
      intros r' Hr'. destruct (decide (r' = row)) as [->|Hne]; [exact E|].
      apply Hinv. lia.
    + rewrite in_merged_tail_app, orb_true_iff.
      assert (IH' := IH (row + 1) row (value_at row) ltac:(lia) ltac:(lia)
                        ltac:(intros r' Hr'; assert (r' = row) as -> by lia;
                              apply py_eqb_refl) r).
      rewrite IH'. clear IH IH'. split.
      * intros [HE|HL].
        -- destruct (negb (start_row =? row - 1) && is_not_None prev_value)
             eqn:G; [|discriminate].
           apply andb_true_iff in G as [_ Gp].
           apply in_merged_tail_single in HE as [_ Hr].
           destruct (Hrun start_row row prev_value r Hinv ltac:(lia))
             as [H1 H2].
           rewrite H2. split; [lia|auto].
        -- destruct HL as (Hr & Hnn & Heq). split; [lia|auto].
      * intros (Hr & Hnn & Heq).
        destruct (lt_eq_lt_dec r row) as [[Hlt|Heq']|Hgt].
        -- left.
           destruct (Hrun start_row row prev_value r Hinv ltac:(lia))
             as [_ H2].
           rewrite H2 in Hnn. rewrite Hnn, andb_true_r.
           assert (G : negb (start_row =? row - 1) = true)
             by (apply negb_true_iff, Nat.eqb_neq; lia).
           rewrite G. apply in_merged_tail_single. split; [reflexivity|lia].
        -- subst r. exfalso.
           assert (Habove : py_eqb (value_at (row - 1)) prev_value = true)
             by (apply Hinv; lia).
           rewrite (py_eqb_trans _ _ _ Heq Habove) in E. discriminate.
        -- right. split; [lia|auto].
Qed.

Lemma merge_loop_column (col last_row : nat) (cells : list scalar) :
  forall row start_row prev_value rg,
    In rg (merge_loop col last_row cells row start_row prev_value) ->
    fst (fst rg) = col.
Proof.
  induction cells as [|v cells IH]; intros row start_row prev_value rg; simpl.
  - destruct (negb (start_row =? last_row) && is_not_None prev_value);
      [|intros []]. intros [<-|[]]. reflexivity.
  - destruct (negb (py_eqb v prev_value)); [|apply IH].
    intros Hin. apply in_app_or in Hin as [Hin|Hin]; [|apply (IH _ _ _ _ Hin)].
    destruct (negb (start_row =? row - 1) && is_not_None prev_value);
      [|destruct Hin]. destruct Hin as [<-|[]]. reflexivity.
Qed.

Lemma merged_tail_iff (cells : list (list scalar)) (r c : nat) :
  in_merged_tail (_merge_cells cells) r c = true <->
  1 <= c <= max_column cells /\
  3 <= r <= max_row cells /\
  is_not_None (cell_value cells r c) = true /\
  py_eqb (cell_value cells r c) (cell_value cells (r - 1) c) = true.
Proof.
  assert (Hloop : forall col, 1 <= max_row cells ->
            in_merged_tail
              (merge_loop col (max_row cells) (column_from cells 2 col)
                          2 2 SNull) r col = true <->
            2 < r <= max_row cells /\
            is_not_None (cell_value cells r col) = true /\
            py_eqb (cell_value cells r col) (cell_value cells (r - 1) col)
            = true).
  { intros col Hrows. unfold column_from.
    apply (merge_loop_tail col (max_row cells)
             (fun r => cell_value cells r col)); try lia; intros; lia. }
  split.
  - intros Hin. unfold in_merged_tail in Hin.
    apply existsb_exists in Hin as ([[col first] last] & Hin & Htest).
    unfold _merge_cells in Hin. apply in_flat_map in Hin as (col0 & Hc & Hin).
    apply in_seq in Hc. assert (Hcol := merge_loop_column _ _ _ _ _ _ _ Hin).
    simpl in Hcol. subst col.
    apply andb_true_iff in Htest as [Htest Hl].
    apply andb_true_iff in Htest as [Hcc Hf]. apply Nat.eqb_eq in Hcc.
    subst c.
    assert (Hrows : 1 <= max_row cells).
    { destruct cells; [unfold max_column in Hc; simpl in Hc; lia|].
      unfold max_row. simpl. lia. }
    assert (Htail : in_merged_tail
                      (merge_loop (col0 + 1) (max_row cells)
                                  (column_from cells 2 (col0 + 1)) 2 2 SNull)
                      r (col0 + 1) = true).
    { unfold in_merged_tail. apply existsb_exists.
      exists (col0 + 1, first, last). split; [exact Hin|].
      rewrite Nat.eqb_refl, Hf, Hl. reflexivity. }
    apply (Hloop _ Hrows) in Htail as (Hr & Hnn & Heq).
    repeat split; try lia; assumption.
  - intros (Hc & Hr & Hnn & Heq).
    assert (Hrows : 1 <= max_row cells) by lia.
    assert (Hr2 : 2 < r <= max_row cells) by lia.
    assert (Htail := proj2 (Hloop c Hrows) (conj Hr2 (conj Hnn Heq))).
    unfold in_merged_tail in Htail |- *.
    apply existsb_exists in Htail as (rg & Hin & Htest).
    apply existsb_exists. exists rg. split; [|exact Htest].
    unfold _merge_cells. apply in_flat_map. exists (c - 1). split.
    + apply in_seq. lia.
    + replace (c - 1 + 1) with c by lia. exact Hin.
Qed.

(** X6.  The merge pass blanks exactly the cells that lie below the first
    data row, are not blank and repeat the cell above them. *)
Theorem merge_blanks_repeats (cells : list (list scalar)) (r c : nat) :
  in_merged_tail (_merge_cells cells) r c = true <->
  1 <= c <= max_column cells /\
  3 <= r <= max_row cells /\
  is_not_None (cell_value cells r c) = true /\
  py_eqb (cell_value cells r c) (cell_value cells (r - 1) c) = true.
Proof. apply merged_tail_iff. Qed.

Lemma merge_loop_ranges (col last_row : nat) (value_at : nat -> scalar)
    (n : nat) :
  forall row start_row prev_value,
    2 <= start_row <= row ->
    row + n = last_row + 1 ->
    (forall r, start_row <= r < row ->
               py_eqb (value_at r) prev_value = true) ->
    (is_not_None prev_value = true -> start_row < row) ->
    Forall (fun '(c, first, last) =>
              c = col /\ 2 <= first /\ first < last /\ last <= last_row /\
              exists p, is_not_None p = true /\
                        forall r, first <= r <= last ->
                                  py_eqb (value_at r) p = true)
           (merge_loop col last_row (map value_at (seq row n))
                       row start_row prev_value).
Proof.
  induction n as [|n IH]; intros row start_row prev_value Hs Hlen Hrun Hne.
  - simpl.
    destruct (negb (start_row =? last_row) && is_not_None prev_value) eqn:G;
      [|constructor].
    apply andb_true_iff in G as [G Gp].
    apply negb_true_iff, Nat.eqb_neq in G. specialize (Hne Gp).
    constructor; [|constructor]. cbn beta iota.
    repeat split; try lia. exists prev_value. split; [exact Gp|].
    intros r Hr. apply Hrun. lia.
  - simpl. replace (S row) with (row + 1) by lia.
    destruct (py_eqb (value_at row) prev_value) eqn:E; simpl.
    + apply IH; try lia.
      intros r Hr. destruct (decide (r = row)) as [->|Hneq]; [exact E|].
      apply Hrun. lia.
    + apply Forall_app. split.
      * destruct (negb (start_row =? row - 1) && is_not_None prev_value)
          eqn:G; [|constructor].
        apply andb_true_iff in G as [G Gp].
        apply negb_true_iff, Nat.eqb_neq in G. specialize (Hne Gp).
        constructor; [|constructor]. cbn beta iota.
        repeat split; try lia. exists prev_value. split; [exact Gp|].
        intros r Hr. apply Hrun. lia.
      * apply IH; try lia.
        intros r Hr. assert (r = row) as -> by lia. apply py_eqb_refl.
Qed.

(** X7.  Every range the merge pass produces is a run: it lies inside the
    columns and below the header, is at least two rows long, and covers
    cells that are not blank and all equal to its first cell. *)
Theorem merge_cells_runs (cells : list (list scalar)) :
  Forall (merged_run cells) (_merge_cells cells).
Proof.
  unfold _merge_cells. apply Forall_flat_map, Forall_forall.
  intros col0 Hc. apply list_elem_of_In, in_seq in Hc.
  assert (Hrows : 1 <= max_row cells).
  { destruct cells; [unfold max_column in Hc; simpl in Hc; lia|].
    unfold max_row. simpl. lia. }
  unfold column_from.
  eapply Forall_impl;
    [apply (merge_loop_ranges (col0 + 1) (max_row cells)
              (fun r => cell_value cells r (col0 + 1))
              (max_row cells + 1 - 2) 2 2 SNull);
       try lia; try (intros; lia); discriminate|].
  intros [[c first] last] (-> & Hf & Hfl & Hl & p & Hp & Hall).
  unfold merged_run. split; [lia|]. split; [lia|]. split; [lia|].
  split; [lia|]. intros r Hr. split.
  - rewrite (py_eqb_not_None _ p); [exact Hp|]. apply Hall. exact Hr.
  - apply (py_eqb_trans _ p); [apply Hall; exact Hr|].
    rewrite py_eqb_sym. apply Hall. lia.
Qed.

(** ** The reader *)







(** ** The rebuilder *)








Lemma split_row_snoc (path : list scalar) (last_key last_value : scalar) :
  split_row (path ++ [last_key; last_value])
  = Ok (path, last_key, last_value).
Proof.
  unfold split_row. rewrite rev_app_distr. simpl.
  rewrite rev_involutive. reflexivity.
Qed.

Lemma walk_skips_missing (path : list scalar) (last_key last_value : scalar) :
  forall cur,
    walk path last_key last_value cur
    = walk (List.filter notna path) last_key last_value cur.
Proof.
  induction path as [|v path IH]; intros cur; [reflexivity|].
  simpl. destruct (notna v) eqn:Hv; simpl; [|apply IH].
  rewrite Hv. destruct cur as [s|l|d]; try reflexivity.
  destruct (dict_get v d); rewrite IH; reflexivity.
Qed.

(** X10.  Missing cells before the last two are skipped: the row is entered
    as the row without them.  A row whose key cells are all missing leaves
    the tree as it is, whatever its last cell. *)
Theorem build_row_missing_cells (res : json) (path : list scalar)
    (last_key last_value : scalar) :
  build_row res (path ++ [last_key; last_value])
  = build_row res (List.filter notna path ++ [last_key; last_value]) /\
  (List.filter notna (path ++ [last_key]) = [] ->
   build_row res (path ++ [last_key; last_value]) = Ok res).
Proof.
  unfold build_row. rewrite !split_row_snoc. simpl. split.
  - apply walk_skips_missing.
  - intros Hblank. rewrite List.filter_app in Hblank.
    apply app_eq_nil in Hblank as [Hpath Hkey].
    rewrite walk_skips_missing, Hpath. simpl. unfold set_leaf.
    simpl in Hkey. destruct (notna last_key); [discriminate|reflexivity].
Qed.

Lemma build_row_missing_cells_witness :
  build_row sample_tree [SNull; SNull; SStr "v"] = Ok sample_tree.
Proof.
  apply (proj2 (build_row_missing_cells sample_tree [SNull] SNull (SStr "v"))).
  reflexivity.
Defined.

Lemma dict_get_set_eq (k : scalar) (v : json) (d : list (scalar * json)) :
  dict_get k (dict_set k v d) = Some v.
Proof.
  induction d as [|[k' v'] d IH]; simpl.
  - rewrite py_eqb_refl. reflexivity.
  - destruct (py_eqb k k') eqn:E; simpl; rewrite E; auto.
Qed.

Lemma set_leaf_again (last_key last_value : scalar) (cur t : json) :
  set_leaf last_key last_value cur = Ok t ->
  set_leaf last_key last_value t = Ok t.
Proof.
  unfold set_leaf. destruct (notna last_key) eqn:Hk; [|intros [= <-]; rewrite ?Hk; reflexivity].
  destruct cur as [s|l|d]; [discriminate| |].
  { destruct last_key; discriminate. }
  destruct (dict_get last_key d) as [[s|l|sub]|] eqn:Hget; [discriminate| | |].
  - destruct (notna last_value && negb (list_mem last_value l)) eqn:C;
      intros [= <-].
    + rewrite dict_get_set_eq.
      apply andb_true_iff in C as [Hv _]. rewrite Hv.
      rewrite list_mem_app. simpl. rewrite py_eqb_refl, orb_true_r.
      reflexivity.
    + rewrite Hget, C. reflexivity.
  - destruct (notna last_value && negb (dict_mem last_value sub)) eqn:C;
      [discriminate|]. intros [= <-]. rewrite Hget, C. reflexivity.
  - intros [= <-]. rewrite dict_get_set_eq.
    destruct (notna last_value) eqn:Hv; simpl.
    + rewrite py_eqb_refl. reflexivity.
    + reflexivity.
Qed.

Lemma walk_again (path : list scalar) (last_key last_value : scalar) :
  forall cur t,
    walk path last_key last_value cur = Ok t ->
    walk path last_key last_value t = Ok t.
Proof.
  induction path as [|v path IH]; intros cur t; simpl.
  - apply set_leaf_again.
  - destruct (notna v) eqn:Hv; [|apply IH].
    destruct cur as [s|l|d]; [discriminate| |].
    { destruct v; discriminate. }
    destruct (dict_get v d) as [child|].
    + destruct (walk path last_key last_value child) as [sub|e] eqn:Hw;
        [|discriminate].
      intros [= <-]. rewrite dict_get_set_eq, (IH _ _ Hw). simpl.
      rewrite dict_set_set. reflexivity.
    + destruct (walk path last_key last_value (JDict [])) as [sub|e] eqn:Hw;
        [|discriminate].
      intros [= <-]. rewrite dict_get_set_eq, (IH _ _ Hw). simpl.
      rewrite dict_set_set. reflexivity.
Qed.

(** X11.  A row entered a second time changes nothing: a table in which a
    row is followed by a copy of itself rebuilds as the table without the
    copy. *)
Theorem build_rows_repeated_row (res : json) (r : list scalar)
    (rows : list (list scalar)) :
  build_rows res (r :: r :: rows) = build_rows res (r :: rows).
Proof.
  simpl. destruct (build_row res r) as [res'|e] eqn:Hrow; [|reflexivity].
  simpl. assert (Hagain : build_row res' r = Ok res').
  { unfold build_row in *.
    destruct (split_row r) as [[[path lk] lv]|e]; [|discriminate].
    simpl in *. apply (walk_again _ _ _ _ _ Hrow). }
  rewrite Hagain. reflexivity.
Qed.

(** ** The validator of the table side on a tree of two levels *)

Lemma get_row_depth_padded (l : list scalar) (k : nat) :
  Forall (fun v => notna v = true) l ->
  get_row_depth (map JScalar l ++ replicate k NA) = Ok (length l).
Proof.
  induction 1 as [|v l Hv _ IH]; simpl.
  - induction k as [|k IHk]; simpl; [reflexivity|]. rewrite IHk. reflexivity.
  - rewrite IH. simpl. rewrite Hv. reflexivity.
Qed.

Lemma list_rows_two_level (kls : list (scalar * list scalar)) :
  list_rows (map (fun kl => (fst kl, JList (map JScalar (snd kl)))) kls)
  = Ok (map (fun kl => map JScalar (snd kl)) kls).
Proof.
  induction kls as [|[k l] kls IH]; simpl; [reflexivity|].
  rewrite IH. reflexivity.
Qed.

Lemma from_dict_index_two_level (kls : list (scalar * list scalar)) :
  kls <> [] ->
  from_dict_index
    (map (fun kl => (fst kl, JList (map JScalar (snd kl)))) kls)
  = Ok (map (pad (list_max
                    (map length (map (fun kl => map JScalar (snd kl)) kls))))
            (map (fun kl => map JScalar (snd kl)) kls)).
Proof.
  intros Hne. destruct kls as [|[k l] kls]; [done|].
  unfold from_dict_index. simpl map at 1. cbn [list_rows fst snd].
  rewrite list_rows_two_level. reflexivity.
Qed.

Lemma row_depths_two_level (n : nat) (kls : list (scalar * list scalar)) :
  Forall (fun kl => Forall (fun v => notna v = true) (snd kl)) kls ->
  row_depths (map (pad n) (map (fun kl => map JScalar (snd kl)) kls))
  = Ok (map (fun kl => length (snd kl)) kls).
Proof.
  induction 1 as [|[k l] kls Hl _ IH]; simpl; [reflexivity|].
  unfold pad at 1. rewrite (get_row_depth_padded l _ Hl). simpl.
  rewrite IH. reflexivity.
Qed.

Lemma list_min_le (l : list nat) (x : nat) : x ∈ l -> list_min l <= x.
Proof.
  destruct l as [|y l]; [intros H; inversion H|]. simpl.
  revert y. induction l as [|z l IH]; intros y Hin.
  - apply list_elem_of_singleton in Hin as ->. simpl. lia.
  - simpl. apply elem_of_cons in Hin as [->|Hin].
    + assert (Hy := IH y ltac:(left)). lia.
    + apply elem_of_cons in Hin as [->|Hin]; [lia|].
      assert (Hy := IH y ltac:(right; exact Hin)). lia.
Qed.

Lemma max_eq_min_iff (l : list nat) :
  l <> [] ->
  (list_max l = list_min l <-> forall x y, x ∈ l -> y ∈ l -> x = y).
Proof.
  intros Hne. split.
  - intros E x y Hx Hy.
    assert (H1 := list_max_ge l x Hx). assert (H2 := list_min_le l x Hx).
    assert (H3 := list_max_ge l y Hy). assert (H4 := list_min_le l y Hy).
    lia.
  - intros Hall. assert (Hm := list_max_elem l Hne).
    assert (Hmin : list_min l ∈ l).
    { destruct l as [|y l]; [done|]. simpl. clear.
      revert y. induction l as [|z l IH]; intros y; simpl; [left|].
      destruct (Nat.min_spec z (foldr Nat.min y l)) as [[_ ->]|[_ ->]].
      - right. left.
      - specialize (IH y). apply elem_of_cons in IH as [E|IH];
          [rewrite E; left|right; right; exact IH]. }
    apply Hall; assumption.
Qed.

(** X12.  On the tree of a table of two columns the validator compares the
    numbers of values of the keys: it accepts exactly when every key has as
    many values as every other, and raises DepthMismatch otherwise. *)
Theorem validate_excel_depth_two_level (kls : list (scalar * list scalar)) :
  kls <> [] ->
  Forall (fun kl => Forall (fun v => notna v = true) (snd kl)) kls ->
  (_validate_excel_depth (two_level kls) = Ok tt <->
   forall kl1 kl2, kl1 ∈ kls -> kl2 ∈ kls ->
                   length (snd kl1) = length (snd kl2)) /\
  (_validate_excel_depth (two_level kls) = Ok tt \/
   _validate_excel_depth (two_level kls) = Err DepthMismatch).
Proof.
  intros Hne Hvals.
  assert (E : _validate_excel_depth (two_level kls)
              = if list_max (map (fun kl => length (snd kl)) kls)
                   =? list_min (map (fun kl => length (snd kl)) kls)
                then Ok tt else Err DepthMismatch).
  { unfold _validate_excel_depth, two_level.
    rewrite (from_dict_index_two_level kls Hne). cbn [rbind].
    unfold check_row_depths. rewrite (row_depths_two_level _ _ Hvals).
    cbn [rbind]. destruct kls; [done|]. reflexivity. }
  rewrite E. clear E.
  assert (Hlens : map (fun kl => length (snd kl)) kls <> [])
    by (destruct kls; [done|discriminate]).
  assert (Hiff := max_eq_min_iff _ Hlens).
  destruct (list_max _ =? list_min _) eqn:C.
  - split; [|left; reflexivity]. split; [|reflexivity].
    intros _ kl1 kl2 H1 H2. apply Nat.eqb_eq in C.
    apply (proj1 Hiff C); apply list_elem_of_fmap;
      [exists kl1|exists kl2]; auto.
  - split; [|right; reflexivity]. split; [discriminate|].
    intros Hall. exfalso. apply Nat.eqb_neq in C. apply C, Hiff.
    intros x y Hx Hy.
    apply list_elem_of_fmap in Hx as (kl1 & -> & H1).
    apply list_elem_of_fmap in Hy as (kl2 & -> & H2).
    apply Hall; assumption.
Qed.

Lemma validate_excel_depth_two_level_witness :
  _validate_excel_depth
    (two_level [(SStr "A", [SStr "v1"; SStr "v2"]); (SStr "B", [SStr "v3"])])
  = Err DepthMismatch.
Proof.
  destruct (validate_excel_depth_two_level
              [(SStr "A", [SStr "v1"; SStr "v2"]); (SStr "B", [SStr "v3"])]
              ltac:(discriminate) ltac:(repeat constructor))
    as [Hiff [Hok|Herr]]; [|exact Herr].
  assert (Hall := proj1 Hiff Hok).
  specialize (Hall (SStr "A", [SStr "v1"; SStr "v2"]) (SStr "B", [SStr "v3"])
                   ltac:(left) ltac:(right; left)).
  discriminate.
Defined.

(** ** The entry points and the files *)



Section JsonToExcelOutcome.

Variable path_stem : string -> string.



End JsonToExcelOutcome.


(** ** main *)





Section MainFacts.

Variable path_stem : string -> string.
Hypothesis stem_categories : path_stem "categories.json" = "categories".


End MainFacts.



(** ** The validator of the JSON side is relative to the starting depth *)

Lemma list_max_map_shift {A : Type} (f g : A -> nat) (k : nat) (l : list A) :
  l <> [] ->
  Forall (fun x => f x = g x + k) l ->
  list_max (map f l) = list_max (map g l) + k.
Proof.
  intros Hne Hall. induction Hall as [|x l Hx Hall IH]; [done|].
  simpl. destruct l as [|y l]; [simpl; lia|].
  rewrite IH by discriminate. lia.
Qed.

Lemma get_depth_shift (d : json) :
  forall depth k, get_depth d (depth + k) = get_depth d depth + k.
Proof.
  induction d as [s|l IH|items IH] using json_nested_ind; intros depth k.
  - reflexivity.
  - destruct l as [|x l]; [reflexivity|].
    change (get_depth (JList (x :: l)) (depth + k))
      with (list_max (map (fun item => get_depth item (depth + k)) (x :: l))).
    change (get_depth (JList (x :: l)) depth)
      with (list_max (map (fun item => get_depth item depth) (x :: l))).
    apply list_max_map_shift; [discriminate|].
    eapply Forall_impl; [exact IH|]. simpl. auto.
  - destruct items as [|kv items]; [reflexivity|].
    change (get_depth (JDict (kv :: items)) (depth + k))
      with (list_max (map (fun kv => get_depth (snd kv) (depth + k + 1))
                          (kv :: items))).
    change (get_depth (JDict (kv :: items)) depth)
      with (list_max (map (fun kv => get_depth (snd kv) (depth + 1))
                          (kv :: items))).
    apply list_max_map_shift; [discriminate|].
    eapply Forall_impl; [exact IH|]. simpl. intros kv' H.
    replace (depth + k + 1) with (depth + 1 + k) by lia. apply H.
Qed.

Lemma existsb_pointwise {A : Type} (f g : A -> bool) (l : list A) :
  (forall x, f x = g x) -> existsb f l = existsb g l.
Proof.
  intros H. induction l as [|x l IH]; simpl; [|rewrite H, IH]; reflexivity.
Qed.

Lemma check_depth_shift (d : json) :
  forall max_depth depth k,
    check_depth (max_depth + k) d (depth + k) = check_depth max_depth d depth.
Proof.
  assert (Heqb : forall a b k, (a + k =? b + k) = (a =? b)).
  { intros a b k. destruct (a =? b) eqn:E.
    - apply Nat.eqb_eq in E. apply Nat.eqb_eq. lia.
    - apply Nat.eqb_neq in E. apply Nat.eqb_neq. lia. }
  induction d as [s|l IH|items IH] using json_nested_ind;
    intros max_depth depth k; [reflexivity| |].
  - simpl.
    rewrite (existsb_pointwise
               (fun item => negb (get_depth item (depth + k)
                                  =? max_depth + k))
               (fun item => negb (get_depth item depth =? max_depth)))
      by (intros item; rewrite get_depth_shift, Heqb; reflexivity).
    destruct (existsb _ l); [reflexivity|].
    induction IH as [|x l Hx _ IHl]; [reflexivity|]. simpl.
    rewrite Hx, IHl. reflexivity.
  - simpl. replace (depth + k + 1) with (depth + 1 + k) by lia.
    rewrite (existsb_pointwise
               (fun kv => negb (get_depth (snd kv) (depth + 1 + k)
                                =? max_depth + k))
               (fun kv => negb (get_depth (snd kv) (depth + 1)
                                =? max_depth)))
      by (intros kv; rewrite get_depth_shift, Heqb; reflexivity).
    destruct (existsb _ items); [reflexivity|].
    induction IH as [|x l Hx _ IHl]; [reflexivity|]. simpl.
    rewrite Hx, IHl. reflexivity.
Qed.

(** X16.  Depths are counted from where the count starts: starting [k]
    levels down adds [k] to the depth found and does not change the check.
    So a tree put under one more key is accepted exactly when the tree
    itself is. *)
Theorem validate_json_depth_relative (t : json) (key : scalar)
    (depth k max_depth : nat) :
  get_depth t (depth + k) = get_depth t depth + k /\
  check_depth (max_depth + k) t (depth + k) = check_depth max_depth t depth /\
  _validate_json_depth (JDict [(key, t)]) = _validate_json_depth t.
Proof.
  split; [apply get_depth_shift|]. split; [apply check_depth_shift|].
  unfold _validate_json_depth.
  assert (Hd : get_depth (JDict [(key, t)]) 0 = get_depth t 0 + 1).
  { change (get_depth (JDict [(key, t)]) 0)
      with (Nat.max (get_depth t (0 + 1)) 0).
    rewrite get_depth_shift. lia. }
  rewrite Hd.
  change (check_depth (get_depth t 0 + 1) (JDict [(key, t)]) 0)
    with (if negb (get_depth t (0 + 1) =? get_depth t 0 + 1) || false
          then false
          else check_depth (get_depth t 0 + 1) t (0 + 1) && true).
  rewrite get_depth_shift, Nat.eqb_refl, check_depth_shift. simpl.
  rewrite andb_true_r. reflexivity.
Qed.

(** ** The sheet *)

Lemma imap_unchanged {A : Type} (f : nat -> A -> A) (l : list A) :
  (forall i x, f i x = x) -> imap f l = l.
Proof.
  revert f. induction l as [|x l IH]; intros f H; [reflexivity|].
  simpl. rewrite H. f_equal. apply IH. intros i y. apply H.
Qed.

(** X17.  The sheet has one row more than the frame, and its first two
    rows, the header with the labels Level 1 to Level n and the first row
    of data, are as written: no merge blanks a cell there. *)
Theorem sheet_header_kept (df : list row) (ws : worksheet) :
  sheet_of df = Ok ws ->
  exists data,
    to_excel df = Ok data /\
    length (ws_cells ws) = S (length data) /\
    take 2 (ws_cells ws)
    = take 2 (_set_headers (match df with r :: _ => length r | [] => 0 end)
                :: data).
Proof.
  unfold sheet_of. destruct (to_excel df) as [data|e]; [|discriminate].
  cbn [rbind]. intros [= <-]. exists data. split; [reflexivity|].
  cbn [ws_cells]. set (cells := _set_headers _ :: data).
  assert (Htop : forall r c, r <= 2 ->
                   in_merged_tail (_merge_cells cells) r c = false).
  { intros r c Hr. apply not_true_is_false. intros H.
    apply merged_tail_iff in H. lia. }
  split.
  - unfold blank_merged. rewrite length_imap. reflexivity.
  - unfold blank_merged, cells. simpl.
    rewrite imap_unchanged by (intros; rewrite Htop by lia; reflexivity).
    f_equal. destruct data as [|r data]; [reflexivity|]. simpl.
    rewrite imap_unchanged by (intros; rewrite Htop by lia; reflexivity).
    reflexivity.
Qed.

Lemma sheet_header_kept_witness :
  exists ws,
    sheet_of (frame_of abc_rows) = Ok ws /\
    take 2 (ws_cells ws)
    = [[SStr "Level 1"; SStr "Level 2"; SStr "Level 3"];
       [SStr "A"; SStr "x"; SStr "v1"]].
Proof.
  destruct (sheet_of_plain 3 abc_rows ltac:(repeat constructor))
    as (ws & Hws & _).
  exists ws. split; [exact Hws|].
  destruct (sheet_header_kept _ ws Hws) as (data & Hdata & _ & Htop).
  rewrite Htop. rewrite to_excel_frame_of in Hdata.
  injection Hdata as <-. reflexivity.
Defined.
